(** * openlog: a shallow embedding of [openlog.logger.Logger]

    The development follows src/openlog/logger.py.  Python strings are
    [string]s, the two log buffers are Python list objects living in a heap
    (so that rebinding an attribute and mutating a list stay different
    things), and everything the logger touches outside of itself -- the
    working directory, the file system, the wall clock and the console -- is
    a field of an explicit [world] threaded through a small state-and-
    exception monad.  The console keeps the strings it is handed; what the
    Rich library makes of such a string is modelled apart, in [Rich]. *)

From Stdlib Require Import NArith Ascii String Lia.
From stdpp Require Import base gmap list strings.

Open Scope string_scope.
Open Scope list_scope.

(* ================================================================= *)
(** ** Python string primitives used by the logger *)

Module PyStr.

(** [s.split(sep)] for a one-character separator (all separators in
    logger.py are one character long).  The result is never empty. *)
Fixpoint split (sep : ascii) (s : string) : list string :=
  match s with
  | EmptyString => [EmptyString]
  | String c s' =>
      if Ascii.eqb c sep then EmptyString :: split sep s'
      else match split sep s' with
           | [] => [String c EmptyString]
           | h :: t => String c h :: t
           end
  end.

(** [sep.join(l)] *)
Fixpoint join (sep : string) (l : list string) : string :=
  match l with
  | [] => EmptyString
  | [x] => x
  | x :: l' => x +:+ sep +:+ join sep l'
  end.

(** [s.replace(a, b)] for one-character [a] and [b]. *)
Fixpoint replace (a b : ascii) (s : string) : string :=
  match s with
  | EmptyString => EmptyString
  | String c s' => String (if Ascii.eqb c a then b else c) (replace a b s')
  end.

(** Truthiness of a string: [if s:] holds for every non-empty string. *)
Definition truthy (s : string) : bool :=
  match s with EmptyString => false | String _ _ => true end.

(** [c in s] for a character. *)
Fixpoint occurs (c : ascii) (s : string) : bool :=
  match s with
  | EmptyString => false
  | String c' s' => Ascii.eqb c' c || occurs c s'
  end.

Definition is_digit (c : ascii) : bool :=
  ((48 <=? N_of_ascii c) && (N_of_ascii c <=? 57))%N.

Fixpoint all_digits (s : string) : bool :=
  match s with
  | EmptyString => true
  | String c s' => is_digit c && all_digits s'
  end.

End PyStr.

(* ================================================================= *)
(** ** [datetime] and its [str()] *)

Module DateTime.

(** A naive [datetime.datetime]: the seven integer fields. *)
Record datetime := mk_datetime {
  year : N; month : N; day : N;
  hour : N; minute : N; second : N;
  microsecond : N
}.

(** The ranges the [datetime] constructor enforces (the day is checked
    against 31 only; the month lengths play no role in formatting). *)
Definition wf (d : datetime) : bool :=
  ((1 <=? year d) && (year d <=? 9999) &&
   (1 <=? month d) && (month d <=? 12) &&
   (1 <=? day d) && (day d <=? 31) &&
   (hour d <? 24) && (minute d <? 60) && (second d <? 60) &&
   (microsecond d <? 1000000))%N.

Definition digit_char (d : N) : ascii := ascii_of_N (48 + d).

(** The [w] low-order decimal digits of [n], most significant first. *)
Fixpoint dec_digits (w : nat) (n : N) : string :=
  match w with
  | O => EmptyString
  | S w' => dec_digits w' (n / 10) +:+ String (digit_char (n mod 10)) EmptyString
  end.

(** Number of decimal digits of [n] (1 for 0). *)
Fixpoint ndigits_aux (fuel : nat) (n : N) : nat :=
  match fuel with
  | O => 1
  | S f => if (n <? 10)%N then 1 else S (ndigits_aux f (n / 10))
  end.

Definition ndigits (n : N) : nat := ndigits_aux (N.to_nat (N.log2 n)) n.

(** ["%0wd" % n]: decimal, zero-padded on the left to at least [w]. *)
Definition fmt0 (w : nat) (n : N) : string :=
  dec_digits (Nat.max w (ndigits n)) n.

(** [str(d)], i.e. [d.isoformat(sep=' ')]: the fraction is printed only
    when the microsecond field is not zero. *)
Definition str (d : datetime) : string :=
  fmt0 4 (year d) +:+ "-" +:+ fmt0 2 (month d) +:+ "-" +:+ fmt0 2 (day d)
  +:+ " " +:+ fmt0 2 (hour d) +:+ ":" +:+ fmt0 2 (minute d)
  +:+ ":" +:+ fmt0 2 (second d)
  +:+ (if (microsecond d =? 0)%N then "" else "." +:+ fmt0 6 (microsecond d)).

End DateTime.

Import DateTime.

(* ================================================================= *)
(** ** The world around a logger *)

(** A node of the file system, addressed by its absolute path. *)
Inductive node :=
| Dir
| File (content : string).

(** A reference to a Python list object. *)
Definition loc := nat.

Record world := World {
  w_cwd : string;                     (* os.getcwd() *)
  w_fs : gmap string node;            (* the file system *)
  w_clock : nat -> datetime;          (* what the n-th clock reading returns *)
  w_reads : nat;                      (* clock readings made so far *)
  w_console : list string;            (* arguments of Console.print, oldest first *)
  w_heap : list (list string)         (* the list objects; a [loc] is an index *)
}.

Definition with_fs (fs : gmap string node) (w : world) : world :=
  World (w_cwd w) fs (w_clock w) (w_reads w) (w_console w) (w_heap w).
Definition with_reads (n : nat) (w : world) : world :=
  World (w_cwd w) (w_fs w) (w_clock w) n (w_console w) (w_heap w).
Definition with_console (c : list string) (w : world) : world :=
  World (w_cwd w) (w_fs w) (w_clock w) (w_reads w) c (w_heap w).
Definition with_heap (h : list (list string)) (w : world) : world :=
  World (w_cwd w) (w_fs w) (w_clock w) (w_reads w) (w_console w) h.

(** Exceptions the modelled operations can raise. *)
Inductive exn :=
| FileExistsError      (* os.mkdir on an existing path *)
| IsADirectoryError    (* open() on a directory *)
| IndexError.          (* list index out of range *)

Inductive outcome (A : Type) :=
| Ok (a : A) (w : world)
| Raise (e : exn) (w : world).
Arguments Ok {A} a w.
Arguments Raise {A} e w.

Definition M (A : Type) : Type := world -> outcome A.

Definition ret {A} (a : A) : M A := fun w => Ok a w.

Definition bind {A B} (m : M A) (k : A -> M B) : M B :=
  fun w => match m w with
           | Ok a w' => k a w'
           | Raise e w' => Raise e w'
           end.

Notation "x <- m ;; k" := (bind m (fun x => k))
  (at level 100, m at next level, right associativity).
Notation "m ;;; k" := (bind m (fun _ => k))
  (at level 100, right associativity).

(** *** Operating-system and library primitives *)

Definition getcwd : M string := fun w => Ok (w_cwd w) w.

Definition isdir (p : string) : M bool :=
  fun w => Ok (match w_fs w !! p with Some Dir => true | _ => false end) w.

Definition mkdir (p : string) : M unit :=
  fun w => match w_fs w !! p with
           | Some _ => Raise FileExistsError w
           | None => Ok tt (with_fs (<[p := Dir]> (w_fs w)) w)
           end.

(** [datetime.now()]: one more reading of the clock. *)
Definition datetime_now : M datetime :=
  fun w => Ok (w_clock w (w_reads w)) (with_reads (S (w_reads w)) w).

(** [l[i]] *)
Definition index {A} (l : list A) (i : nat) : M A :=
  fun w => match l !! i with
           | Some x => Ok x w
           | None => Raise IndexError w
           end.

Inductive open_mode :=
| W_plus     (* "w+": create or truncate *)
| A_plus.    (* "a+": create if missing, write at the end *)

(** An open text file; the handle remembers the path it was opened on. *)
Record file := { f_path : string }.

Definition py_open (path : string) (mode : open_mode) : M file :=
  fun w => match w_fs w !! path with
           | Some Dir => Raise IsADirectoryError w
           | Some (File c) =>
               Ok {| f_path := path |}
                  (match mode with
                   | W_plus => with_fs (<[path := File ""]> (w_fs w)) w
                   | A_plus => w
                   end)
           | None => Ok {| f_path := path |} (with_fs (<[path := File ""]> (w_fs w)) w)
           end.

(** [f.write(s)]: both modes are written once, right after [open], so the
    text lands at the end of the (possibly just truncated) content, as it
    is (no newline translation, as on POSIX).  A handle only comes from
    [py_open], hence always names a regular file. *)
Definition file_write (f : file) (s : string) : M unit :=
  fun w => match w_fs w !! f_path f with
           | Some (File c) => Ok tt (with_fs (<[f_path f := File (c +:+ s)]> (w_fs w)) w)
           | _ => Ok tt w
           end.

Definition file_close (f : file) : M unit := ret tt.

(** [Console.print(s)]: the console receives the markup string [s].  The
    call records its argument.  Whether Rich accepts the string or raises
    [MarkupError] on it, and what it shows of it, is read off the recorded
    string with [Rich.render] below: logger.py hands the string over and
    has no part in what follows. *)
Definition console_print (s : string) : M unit :=
  fun w => Ok tt (with_console (w_console w ++ [s]) w).

(** [[]], [l.append(s)], [l.copy()] and reading a list object. *)
Definition list_new : M loc :=
  fun w => Ok (length (w_heap w)) (with_heap (w_heap w ++ [[]]) w).

Definition list_append (l : loc) (s : string) : M unit :=
  fun w => Ok tt (with_heap (alter (fun xs => xs ++ [s]) l (w_heap w)) w).

Definition deref (w : world) (l : loc) : list string := w_heap w !!! l.

Definition list_copy (l : loc) : M loc :=
  fun w => Ok (length (w_heap w)) (with_heap (w_heap w ++ [deref w l]) w).

(* ================================================================= *)
(** ** The Logger *)

Record Logger := mk_Logger {
  write_to_file : bool;
  prefix : string;
  short_timestamp : bool;
  in_dir : bool;
  path_prefix : string;
  session : bool;
  log_file_path : string;
  log_list : loc;
  log_list_to_send : loc
}.

Definition set_log_list_to_send (l : loc) (self : Logger) : Logger :=
  mk_Logger (write_to_file self) (prefix self) (short_timestamp self)
            (in_dir self) (path_prefix self) (session self)
            (log_file_path self) (log_list self) l.

Definition dashes : string := "-----------------------".

(** The one-character string "\n". *)
Definition newline : string := String "010"%char EmptyString.

Definition _open_log_file (self : Logger) (mode : open_mode) : M file :=
  py_open (log_file_path self) mode.

Definition _make_timestamp_string (self : Logger) : M string :=
  now <- datetime_now ;;
  timestamp <- index (PyStr.split "." (str now)) 0 ;;
  if short_timestamp self then
    time_part <- index (PyStr.split " " timestamp) 1 ;;
    ret (PyStr.join ":" (take 2 (PyStr.split ":" time_part)))
  else ret timestamp.

Definition __init__ (write_to_file in_dir session : bool) (prefix : string)
    (short_timestamp : bool) : M Logger :=
  path_prefix <-
    (if in_dir then
       cwd <- getcwd ;;
       d <- isdir (cwd +:+ "/logs") ;;
       (if negb d then
          if write_to_file then
            cwd' <- getcwd ;; mkdir (cwd' +:+ "/logs")
          else ret tt
        else ret tt) ;;;
       ret "/logs"
     else ret "") ;;
  log_file_path <-
    (if session then
       cwd <- getcwd ;;
       now <- datetime_now ;;
       ret (cwd +:+ path_prefix +:+ "/log_"
            +:+ PyStr.replace ":" "-" (PyStr.replace " " "_" (str now))
            +:+ ".txt")
     else
       cwd <- getcwd ;;
       ret (cwd +:+ path_prefix +:+ "/log.txt")) ;;
  log_list <- list_new ;;
  log_list_to_send <- list_new ;;
  let self := mk_Logger write_to_file prefix short_timestamp in_dir
                        path_prefix session log_file_path
                        log_list log_list_to_send in
  (if write_to_file then
     log_file <- _open_log_file self W_plus ;;
     ts <- _make_timestamp_string self ;;
     file_write log_file (dashes +:+ ts +:+ dashes +:+ newline) ;;;
     file_close log_file
   else ret tt) ;;;
  ret self.

(** The style chosen for a level tag. *)
Definition color_code_of (m_type : string) : string :=
  if String.eqb m_type "INFO" then "blue bold"
  else if String.eqb m_type "ERROR" then "red bold"
  else if String.eqb m_type "WARN" then "yellow bold"
  else if String.eqb m_type "INIT" then "purple bold"
  else "white bold".

Definition _echo (self : Logger) (msg m_type : string) : M unit :=
  (if write_to_file self then
     bare_log_string <-
       (if PyStr.truthy (prefix self) then
          ts <- _make_timestamp_string self ;;
          ret ("[" +:+ ts +:+ "]::[" +:+ prefix self +:+ "]::" +:+ m_type
               +:+ "::" +:+ msg +:+ newline)
        else
          ts <- _make_timestamp_string self ;;
          ret ("[" +:+ ts +:+ "]::" +:+ m_type +:+ "::" +:+ msg +:+ newline)) ;;
     log_file <- _open_log_file self A_plus ;;
     file_write log_file bare_log_string ;;;
     file_close log_file ;;;
     list_append (log_list self) bare_log_string ;;;
     list_append (log_list_to_send self) bare_log_string
   else ret tt) ;;;
  let color_code := color_code_of m_type in
  if PyStr.truthy (prefix self) then
    ts <- _make_timestamp_string self ;;
    console_print ("[gray][" +:+ ts +:+ "][/][red bold]::[/][green bold]["
                   +:+ prefix self +:+ "][/][red bold]::[/][" +:+ color_code
                   +:+ "]" +:+ m_type +:+ "[/][red bold]::[/]" +:+ msg)
  else
    ts <- _make_timestamp_string self ;;
    console_print ("[gray][" +:+ ts +:+ "][/][red bold]::[/][" +:+ color_code
                   +:+ "]" +:+ m_type +:+ "[/][red bold]::[/]" +:+ msg).

Definition log (self : Logger) (msg : string) : M unit := _echo self msg "INFO".
Definition error (self : Logger) (msg : string) : M unit := _echo self msg "ERROR".
Definition warn (self : Logger) (msg : string) : M unit := _echo self msg "WARN".
Definition init (self : Logger) (msg : string) : M unit := _echo self msg "INIT".

(** [flush_logs] returns the copy it made, together with the logger whose
    [log_list_to_send] attribute has been rebound to a new empty list. *)
Definition flush_logs (self : Logger) (from_start : bool) : M (loc * Logger) :=
  let self1 := if from_start then set_log_list_to_send (log_list self) self
               else self in
  log_list <- list_copy (log_list_to_send self1) ;;
  fresh <- list_new ;;
  ret (log_list, set_log_list_to_send fresh self1).

(* ================================================================= *)
(** ** Vocabulary of the specification *)

(** The date and time of a printed datetime, from its six fields. *)
Definition date_time (y mo d h mi s : string) : string :=
  y +:+ "-" +:+ mo +:+ "-" +:+ d +:+ " " +:+ h +:+ ":" +:+ mi +:+ ":" +:+ s.

(** The timestamp string read off a clock value, in closed form. *)
Definition timestamp_of (short : bool) (d : datetime) : string :=
  if short then fmt0 2 (hour d) +:+ ":" +:+ fmt0 2 (minute d)
  else date_time (fmt0 4 (year d)) (fmt0 2 (month d)) (fmt0 2 (day d))
                 (fmt0 2 (hour d)) (fmt0 2 (minute d)) (fmt0 2 (second d)).

(** Shapes of strings: a digit, or one given character, per position. *)
Inductive pat :=
| PDigit
| PChar (c : ascii).

Fixpoint matches (p : list pat) (s : string) : bool :=
  match p, s with
  | [], EmptyString => true
  | PDigit :: p', String c s' => PyStr.is_digit c && matches p' s'
  | PChar a :: p', String c s' => Ascii.eqb c a && matches p' s'
  | _, _ => false
  end.

Definition digits (k : nat) : list pat := repeat PDigit k.

(** HH:MM *)
Definition pat_short : list pat := digits 2 ++ PChar ":" :: digits 2.

(** YYYY-MM-DD HH:MM:SS *)
Definition pat_full : list pat :=
  digits 4 ++ PChar "-" :: digits 2 ++ PChar "-" :: digits 2 ++ PChar " "
  :: digits 2 ++ PChar ":" :: digits 2 ++ PChar ":" :: digits 2.

(** The plain-text line in the words of the specification: the fields
    [[timestamp]], [[prefix]] (only for a non-empty prefix), level tag and
    message, joined by "::" and closed by a newline. *)
Definition spec_line (ts pfx level msg : string) : string :=
  PyStr.join "::"
    (["[" +:+ ts +:+ "]"]
     ++ (if decide (pfx = "") then [] else ["[" +:+ pfx +:+ "]"])
     ++ [level; msg])
  +:+ newline.

(** The separator line written at construction. *)
Definition header_line (ts : string) : string :=
  dashes +:+ ts +:+ dashes +:+ newline.

(** A console line as the template of [_echo] builds it: pieces of text,
    each either wrapped in a style tag and its closing [[/]] or left bare. *)
Inductive segment :=
| Styled (style text : string)
| Plain (text : string).

Definition console_segments (pfx ts m_type msg : string) : list segment :=
  [Styled "gray" ("[" +:+ ts +:+ "]"); Styled "red bold" "::"]
  ++ (if PyStr.truthy pfx
      then [Styled "green bold" ("[" +:+ pfx +:+ "]"); Styled "red bold" "::"]
      else [])
  ++ [Styled (color_code_of m_type) m_type; Styled "red bold" "::"; Plain msg].

(** The markup string of a line. *)
Fixpoint markup (l : list segment) : string :=
  match l with
  | [] => EmptyString
  | Styled st t :: l' => "[" +:+ st +:+ "]" +:+ t +:+ "[/]" +:+ markup l'
  | Plain t :: l' => t +:+ markup l'
  end.

(* ================================================================= *)
(** ** Rich's console markup

    [Console.print] belongs to the Rich library, not to logger.py.  What it
    does with the string it is handed is modelled here from rich/markup.py
    ([_parse] and [render]) and rich/text.py ([Text.append]): which
    bracketed groups are tags, how backslashes escape them, how closing
    tags are matched against the open ones -- a closing tag with nothing to
    close is a [MarkupError] -- and which text is left once the tags are
    gone.  Four things Rich computes from tables or with Python's own
    parser are taken as given, in an [env].  Strings are byte strings
    here, and only ASCII characters are ever inspected.  Breaking the
    rendered text into lines of the terminal's width is layout and is left
    out. *)

Module Rich.

Record env := Env {
  normalize : string -> string;      (* Style.normalize: the normal form of a style *)
  strip : string -> string;          (* str.strip, on a non-empty string *)
  emoji_replace : string -> string;  (* _emoji_replace: ":name:" codes, from Rich's table *)
  handler_ok : string -> bool        (* whether the parameters of an "@" tag evaluate *)
}.

(** The first character of a tag: [a-z#/@]. *)
Definition tag_start (c : ascii) : bool :=
  ((97 <=? N_of_ascii c) && (N_of_ascii c <=? 122))%N
  || Ascii.eqb c "#" || Ascii.eqb c "/" || Ascii.eqb c "@".

(** The inside of a tag after its first character: the characters up to
    the first closing bracket, unless an opening bracket comes before it;
    and what follows the closing bracket. *)
Fixpoint tag_body (s : string) : option (string * string) :=
  match s with
  | EmptyString => None
  | String c s' =>
      if Ascii.eqb c "]" then Some (EmptyString, s')
      else if Ascii.eqb c "[" then None
      else match tag_body s' with
           | Some (b, r) => Some (String c b, r)
           | None => None
           end
  end.

(** A tag at the head of [s]: its text between the brackets, and the rest. *)
Definition tag_at (s : string) : option (string * string) :=
  match s with
  | String c0 (String c s') =>
      if Ascii.eqb c0 "[" && tag_start c then
        match tag_body s' with
        | Some (b, r) => Some (String c b, r)
        | None => None
        end
      else None
  | _ => None
  end.

(** The backslashes at the head of [s], counted: the first group of
    RE_TAGS. *)
Fixpoint leading_backslashes (s : string) : nat * string :=
  match s with
  | EmptyString => (0, EmptyString)
  | String c s' =>
      if Ascii.eqb c "\" then
        let (k, r) := leading_backslashes s' in (S k, r)
      else (0, s)
  end.

Inductive token :=
| TText (text : string)
| TTag (name : string) (parameters : option string).

(** [tag_text.partition("=")] *)
Fixpoint partition_eq (s : string) : string * option string :=
  match s with
  | EmptyString => (EmptyString, None)
  | String c s' =>
      if Ascii.eqb c "=" then (EmptyString, Some s')
      else let (n, p) := partition_eq s' in (String c n, p)
  end.

Fixpoint backslash_string (n : nat) : string :=
  match n with
  | O => EmptyString
  | S n' => String "\" (backslash_string n')
  end.

(** What [_parse] yields for one match of RE_TAGS with [k] backslashes in
    front: half of them as text; then the tag, or, when [k] is odd, the
    tag's own characters as text. *)
Definition match_tokens (k : nat) (tag_text : string) : list token :=
  (if (0 <? k / 2)%nat then [TText (backslash_string (k / 2))] else [])
  ++ (if (k mod 2 =? 1)%nat then [TText ("[" +:+ tag_text +:+ "]")]
      else let (n, p) := partition_eq tag_text in [TTag n p]).

(** A match of RE_TAGS at the head of [s]: its tokens and its length. *)
Definition match_at (s : string) : option (list token * nat) :=
  let (k, r) := leading_backslashes s in
  match tag_at r with
  | Some (tag_text, _) => Some (match_tokens k tag_text, k + 2 + String.length tag_text)
  | None => None
  end.

Definition flush (acc : string) : list token :=
  match acc with
  | EmptyString => []
  | _ => [TText acc]
  end.

(** [_parse]: the matches of RE_TAGS from left to right, with the text
    between them.  [skip] counts the characters of a match still to pass
    over, [acc] holds the text since the last match. *)
Fixpoint scan (skip : nat) (acc : string) (s : string) : list token :=
  match s with
  | EmptyString => flush acc
  | String c s' =>
      match skip with
      | S k => scan k acc s'
      | O =>
          match match_at (String c s') with
          | Some (toks, len) => flush acc ++ toks ++ scan (len - 1) EmptyString s'
          | None => scan 0 (acc +:+ String c EmptyString) s'
          end
      end
  end.

Definition parse (s : string) : list token := scan 0 EmptyString s.

(** [plain_text.replace("\\[", "[")] *)
Fixpoint unescape (s : string) : string :=
  match s with
  | EmptyString => EmptyString
  | String c s' =>
      match s' with
      | String c' s'' =>
          if Ascii.eqb c "\" && Ascii.eqb c' "[" then String "[" (unescape s'')
          else String c (unescape s')
      | EmptyString => String c EmptyString
      end
  end.

(** [strip_control_codes]: bell, backspace, vertical tab, form feed and
    carriage return are dropped. *)
Definition control_code (c : ascii) : bool :=
  let n := N_of_ascii c in
  ((n =? 7) || (n =? 8) || (n =? 11) || (n =? 12) || (n =? 13))%N.

Fixpoint strip_control_codes (s : string) : string :=
  match s with
  | EmptyString => EmptyString
  | String c s' =>
      if control_code c then strip_control_codes s'
      else String c (strip_control_codes s')
  end.

(** The text Rich keeps of one chunk of plain text. *)
Definition chunk_text (E : env) (t : string) : string :=
  strip_control_codes (emoji_replace E (unescape t)).

Record tag := Tag { tag_name : string; tag_parameters : option string }.

(** A chunk of rendered text with the tags open around it, innermost first. *)
Record piece := Piece { piece_styles : list tag; piece_text : string }.

Inductive result :=
| Rendered (pieces : list piece)
| MarkupError.

Definition starts_with (c : ascii) (s : string) : bool :=
  match s with
  | String c' _ => Ascii.eqb c' c
  | EmptyString => false
  end.

Definition tail (s : string) : string :=
  match s with
  | String _ s' => s'
  | EmptyString => EmptyString
  end.

(** [pop_style]: the most recently opened tag of that name leaves the stack. *)
Fixpoint pop_style (name : string) (stack : list tag) : option (tag * list tag) :=
  match stack with
  | [] => None
  | t :: stack' =>
      if String.eqb (tag_name t) name then Some (t, stack')
      else match pop_style name stack' with
           | Some (t', rest) => Some (t', t :: rest)
           | None => None
           end
  end.

(** Closing an "@" tag evaluates its parameters, which may fail. *)
Definition closes_cleanly (E : env) (t : tag) : bool :=
  if starts_with "@" (tag_name t) then
    match tag_parameters t with
    | Some p => if PyStr.truthy p then handler_ok E p else true
    | None => true
    end
  else true.

(** The loop of [render] over the tokens, [stack] being the open tags. *)
Fixpoint render_tokens (E : env) (stack : list tag) (toks : list token) : result :=
  match toks with
  | [] => Rendered []
  | TText t :: rest =>
      match render_tokens E stack rest with
      | Rendered ps => Rendered (Piece stack (chunk_text E t) :: ps)
      | MarkupError => MarkupError
      end
  | TTag name parameters :: rest =>
      if starts_with "/" name then
        let style_name :=
          match tail name with
          | EmptyString => EmptyString
          | r => strip E r
          end in
        match (if PyStr.truthy style_name
               then pop_style (normalize E style_name) stack
               else match stack with
                    | [] => None
                    | t :: stack' => Some (t, stack')
                    end) with
        | None => MarkupError
        | Some (open_tag, stack') =>
            if closes_cleanly E open_tag then render_tokens E stack' rest
            else MarkupError
        end
      else render_tokens E (Tag (normalize E name) parameters :: stack) rest
  end.

(** [rich.markup.render], as [Console.print] applies it to a string. *)
Definition render (E : env) (s : string) : result :=
  render_tokens E [] (parse s).

(** The text of a rendering, styles set aside. *)
Definition plain (ps : list piece) : string :=
  foldr (fun p t => piece_text p +:+ t) EmptyString ps.

(** What is left of a string on the console, if Rich accepts it. *)
Definition text (E : env) (s : string) : option string :=
  match render E s with
  | Rendered ps => Some (plain ps)
  | MarkupError => None
  end.



(** An environment without emoji names, for examples. *)
Definition bare : env := Env (fun s => s) (fun s => s) (fun s => s) (fun _ => true).

End Rich.









(** The directory a path lies in: the path up to its last "/". *)
Fixpoint parent_dir (p : string) : string :=
  match p with
  | EmptyString => EmptyString
  | String c p' => if PyStr.occurs "/" p' then String c (parent_dir p') else EmptyString
  end.

Definition is_file (w : world) (p : string) : bool :=
  match w_fs w !! p with Some (File _) => true | _ => false end.

Definition file_content (w : world) (p : string) : string :=
  match w_fs w !! p with Some (File c) => c | _ => EmptyString end.

Definition is_dir (w : world) (p : string) : bool :=
  match w_fs w !! p with Some Dir => true | _ => false end.

(** What every operation relies on: the two buffers are two different
    live list objects, and the path of a logger that mirrors to a file is
    not taken by a directory. *)
Record logger_inv (self : Logger) (w : world) : Prop := {
  inv_all : log_list self < length (w_heap w);
  inv_pending : log_list_to_send self < length (w_heap w);
  inv_distinct : log_list self ≠ log_list_to_send self;
  inv_file : write_to_file self = true -> is_dir w (log_file_path self) = false
}.

(** The four leveled entry points. *)
Inductive level := INFO | ERROR | WARN | INIT.

Definition level_tag (l : level) : string :=
  match l with
  | INFO => "INFO" | ERROR => "ERROR" | WARN => "WARN" | INIT => "INIT"
  end.

Definition call (self : Logger) (l : level) (msg : string) : M unit :=
  match l with
  | INFO => log self msg
  | ERROR => error self msg
  | WARN => warn self msg
  | INIT => init self msg
  end.

(** A client program: leveled calls and flushes, run in order.  The run
    hands back what each flush returned, read when it returned. *)
Inductive op :=
| Call (l : level) (msg : string)
| Flush (from_start : bool).

Fixpoint run_ops (self : Logger) (ops : list op) : M (list (list string) * Logger) :=
  match ops with
  | [] => ret ([], self)
  | Call l msg :: ops' => call self l msg ;;; run_ops self ops'
  | Flush b :: ops' =>
      r <- flush_logs self b ;;
      batch <- (fun w => Ok (deref w r.1) w) ;;
      rest <- run_ops r.2 ops' ;;
      ret (batch :: rest.1, rest.2)
  end.

Fixpoint run_calls (self : Logger) (calls : list (level * string)) : M unit :=
  match calls with
  | [] => ret tt
  | (l, msg) :: calls' => call self l msg ;;; run_calls self calls'
  end.

(** The line a leveled call is expected to add when the clock has been
    read [r] times before it. *)
Definition line_at (self : Logger) (clock : nat -> datetime) (r : nat)
    (m_type msg : string) : string :=
  spec_line (timestamp_of (short_timestamp self) (clock r)) (prefix self) m_type msg.

(** Expected lines of a run of calls on a file-mirroring logger: every call
    reads the clock twice, first for the file and then for the console. *)
Fixpoint lines_of (self : Logger) (clock : nat -> datetime) (r : nat)
    (calls : list (level * string)) : list string :=
  match calls with
  | [] => []
  | (l, msg) :: calls' =>
      line_at self clock r (level_tag l) msg :: lines_of self clock (r + 2) calls'
  end.

Fixpoint calls_of (ops : list op) : list (level * string) :=
  match ops with
  | [] => []
  | Call l msg :: ops' => (l, msg) :: calls_of ops'
  | Flush _ :: ops' => calls_of ops'
  end.

(** The lines an emit adds to the buffers. *)
Definition emitted (self : Logger) (w : world) (m_type msg : string) : list string :=
  if write_to_file self
  then [line_at self (w_clock w) (w_reads w) m_type msg]
  else [].

(** States a logger can be in: after construction, after any emit, after any
    flush.  [hist] lists the lines emitted so far and [mark] counts those
    emitted before the last flush (none before the first). *)
Inductive reachable : Logger -> world -> list string -> nat -> Prop :=
| reach_init wtf ind ses pfx sh w0 self w :
    __init__ wtf ind ses pfx sh w0 = Ok self w ->
    reachable self w [] 0
| reach_echo self w hist mark msg m_type w' :
    reachable self w hist mark ->
    _echo self msg m_type w = Ok tt w' ->
    reachable self w' (hist ++ emitted self w m_type msg) mark
| reach_flush self w hist mark from_start r self' w' :
    reachable self w hist mark ->
    flush_logs self from_start w = Ok (r, self') w' ->
    reachable self' w' hist (length hist).

(** A logger with nothing pending: fresh from its constructor or from a
    flush. *)
Inductive just_flushed : Logger -> world -> Prop :=
| fresh_init wtf ind ses pfx sh w0 self w :
    __init__ wtf ind ses pfx sh w0 = Ok self w ->
    just_flushed self w
| fresh_flush self0 w0 from_start r self w :
    logger_inv self0 w0 ->
    flush_logs self0 from_start w0 = Ok (r, self) w ->
    just_flushed self w.

(** The lines a run of calls adds to the buffers of [self]. *)
Definition buffer_lines (self : Logger) (clock : nat -> datetime) (r : nat)
    (calls : list (level * string)) : list string :=
  if write_to_file self then lines_of self clock r calls else [].

(** The text of a file made of these lines. *)
Definition text_of_lines (l : list string) : string := foldr String.append "" l.

(* ================================================================= *)
(** ** Construction in closed form *)

#[global] Instance node_eq_dec : EqDecision node.
Proof. solve_decision. Defined.

(** The file system once the directory step of [__init__] is through. *)
Definition after_dir_step (wtf ind : bool) (w0 : world) : gmap string node :=
  if ind && wtf then
    match w_fs w0 !! (w_cwd w0 +:+ "/logs") with
    | None => <[w_cwd w0 +:+ "/logs" := Dir]> (w_fs w0)
    | Some _ => w_fs w0
    end
  else w_fs w0.

Definition file_name (ses : bool) (w0 : world) : string :=
  if ses then
    "/log_"
    +:+ PyStr.replace ":" "-" (PyStr.replace " " "_" (str (w_clock w0 (w_reads w0))))
    +:+ ".txt"
  else "/log.txt".

Definition init_path (ind ses : bool) (w0 : world) : string :=
  w_cwd w0 +:+ (if ind then "/logs" else "") +:+ file_name ses w0.

(** The logger and the world a successful construction ends with. *)
Definition init_logger (wtf ind ses : bool) (pfx : string) (sh : bool)
    (w0 : world) : Logger :=
  mk_Logger wtf pfx sh ind (if ind then "/logs" else "") ses
            (init_path ind ses w0)
            (length (w_heap w0)) (S (length (w_heap w0))).

Definition init_world (wtf ind ses : bool) (sh : bool) (w0 : world) : world :=
  let r := (w_reads w0 + if ses then 1 else 0)%nat in
  World (w_cwd w0)
    (if wtf
     then <[init_path ind ses w0 :=
              File (header_line (timestamp_of sh (w_clock w0 r)))]>
            (after_dir_step wtf ind w0)
     else w_fs w0)
    (w_clock w0)
    (r + if wtf then 1 else 0)
    (w_console w0)
    (w_heap w0 ++ [[]; []]).

(** Whether a file-mirroring logger can be constructed in [w0]: "logs" is
    not a regular file when a directory is asked for, and the log file path
    is not a directory. *)
Definition can_construct (ind ses : bool) (w0 : world) : bool :=
  negb (ind && is_file w0 (w_cwd w0 +:+ "/logs"))
  && negb (match after_dir_step true ind w0 !! init_path ind ses w0 with
           | Some Dir => true
           | _ => false
           end).

(* ================================================================= *)
(** ** A running example *)

(** A clock that ticks one second per reading, and an empty machine. *)
Definition demo_clock (n : nat) : datetime :=
  mk_datetime 2024 1 1 10 0 (N.of_nat n) 0.

Definition demo_world : world := World "/home/user" ∅ demo_clock 0 [] [].

Definition world_after {A} (o : outcome A) : world :=
  match o with Ok _ w => w | Raise _ w => w end.

Definition returned {A} (o : outcome A) : option A :=
  match o with Ok a _ => Some a | Raise _ _ => None end.

Definition raised {A} (o : outcome A) : option exn :=
  match o with Ok _ _ => None | Raise e _ => Some e end.

(** [Logger(write_to_file=True, prefix="APP")], right after construction
    and after one [error("disk full")]. *)
Definition demo_self : Logger := init_logger true false false "APP" false demo_world.
Definition demo_w1 : world := init_world true false false false demo_world.
Definition demo_w2 : world := world_after (error demo_self "disk full" demo_w1).
Definition demo_line : string :=
  "[2024-01-01 10:00:01]::[APP]::ERROR::disk full" +:+ newline.
Definition demo_shown : list segment :=
  console_segments "APP" "2024-01-01 10:00:02" "ERROR" "disk full".



(** Two non-session loggers in one directory: [Logger(write_to_file=True)],
    one [log] call on it, then [Logger(write_to_file=True, in_dir=True)]. *)
Definition plain_self : Logger := init_logger true false false "" false demo_world.
Definition plain_w1 : world := init_world true false false false demo_world.
Definition plain_w2 : world := world_after (log plain_self "hello" plain_w1).
Definition dir_self : Logger := init_logger true true false "" false plain_w2.
Definition dir_w1 : world := init_world true true false false plain_w2.

(* ================================================================= *)
(** ** Further vocabulary: construction, sessions, programs *)

(** The conflict a construction with file mirroring runs into, if "logs"
    is a regular file or the log file's path is a directory. *)
Definition construction_conflict (ind ses : bool) (w0 : world) : option exn :=
  if ind && is_file w0 (w_cwd w0 +:+ "/logs") then Some FileExistsError
  else if is_dir w0 (init_path ind ses w0)
          && (negb ind || is_dir w0 (w_cwd w0 +:+ "/logs"))
       then Some IsADirectoryError
       else None.

(** A directory with a regular file named "logs" in it. *)
Definition logs_file_w : world :=
  World "/home/user" {[ "/home/user" := Dir; "/home/user/logs" := File "" ]}
    demo_clock 0 [] [].

(** The part of a session file name that comes from the clock:
    YYYY-MM-DD_HH-MM-SS, followed by .ffffff unless the microseconds are 0. *)
Definition session_stamp (d : datetime) : string :=
  fmt0 4 (year d) +:+ "-" +:+ fmt0 2 (month d) +:+ "-" +:+ fmt0 2 (day d)
  +:+ "_" +:+ fmt0 2 (hour d) +:+ "-" +:+ fmt0 2 (minute d)
  +:+ "-" +:+ fmt0 2 (second d)
  +:+ (if (microsecond d =? 0)%N then "" else "." +:+ fmt0 6 (microsecond d)).

(** Two session loggers built one after the other on the running example. *)
Definition session_a : Logger := init_logger true false true "" false demo_world.
Definition session_wa : world := init_world true false true false demo_world.
Definition session_b : Logger := init_logger true false true "" false session_wa.
Definition session_wb : world := init_world true false true false session_wa.

(** Programs whose flushes are all [flush_logs()] / [flush_logs(False)]. *)
Definition incremental (ops : list op) : bool :=
  forallb (fun o => match o with Flush true => false | _ => true end) ops.

(** The running example once its history has been flushed from the start. *)
Definition flushed_r : loc := length (w_heap demo_w2).
Definition flushed_self : Logger :=
  set_log_list_to_send (S (length (w_heap demo_w2))) demo_self.
Definition flushed_w : world :=
  with_heap (w_heap demo_w2 ++ [deref demo_w2 (log_list demo_self); []]) demo_w2.



(** The running example with a directory put where its log file was. *)
Definition blocked_w : world :=
  with_fs (<["/home/user/log.txt" := Dir]> (w_fs demo_w1)) demo_w1.

(** The running example in a directory that the file system lists, and
    the same with the log file removed. *)
Definition listed_w : world :=
  with_fs (<["/home/user" := Dir]> (w_fs demo_w1)) demo_w1.
Definition wiped_w : world :=
  with_fs (delete "/home/user/log.txt" (w_fs listed_w)) listed_w.

#[local] Arguments _make_timestamp_string : simpl never.

(* ================================================================= *)
(** ** The embedding on concrete inputs *)

Example split_time : PyStr.split ":" "10:00:05" = ["10"; "00"; "05"].
Proof. reflexivity. Qed.

Example split_keeps_empty_pieces : PyStr.split "." ".a." = [""; "a"; ""].
Proof. reflexivity. Qed.

Example str_with_fraction :
  str (mk_datetime 2024 1 1 10 0 3 123456) = "2024-01-01 10:00:03.123456".
Proof. reflexivity. Qed.

Example str_whole_second : str (demo_clock 5) = "2024-01-01 10:00:05".
Proof. reflexivity. Qed.

Example fmt0_wider_than_field : fmt0 4 12345 = "12345".
Proof. reflexivity. Qed.

Example timestamp_is_read_anew :
  let first := _make_timestamp_string demo_self demo_w1 in
  returned first = Some "2024-01-01 10:00:01" /\
  returned (_make_timestamp_string demo_self (world_after first))
  = Some "2024-01-01 10:00:02".
Proof. by vm_compute. Qed.

Example session_file_name :
  let self := init_logger true true true "" false demo_world in
  let w := init_world true true true false demo_world in
  __init__ true true true "" false demo_world = Ok self w /\
  log_file_path self = "/home/user/logs/log_2024-01-01_10-00-00.txt" /\
  w_fs w !! "/home/user/logs" = Some Dir /\
  file_content w (log_file_path self)
    = "-----------------------2024-01-01 10:00:01-----------------------"
      +:+ newline.
Proof. by vm_compute. Qed.

Example demo_file_after_error :
  error demo_self "disk full" demo_w1 = Ok tt demo_w2 /\
  file_content demo_w2 "/home/user/log.txt"
    = header_line "2024-01-01 10:00:00" +:+ demo_line /\
  deref demo_w2 (log_list demo_self) = [demo_line] /\
  deref demo_w2 (log_list_to_send demo_self) = [demo_line] /\
  w_console demo_w2 = [markup demo_shown].
Proof. by vm_compute. Qed.

Example logs_is_a_file_raises :
  raised (__init__ true true false "" false
            (World "/home/user" {[ "/home/user/logs" := File "" ]} demo_clock 0 [] []))
  = Some FileExistsError.
Proof. reflexivity. Qed.

Example log_path_is_a_directory_raises :
  raised (__init__ true false false "" false
            (World "/home/user" {[ "/home/user/log.txt" := Dir ]} demo_clock 0 [] []))
  = Some IsADirectoryError.
Proof. reflexivity. Qed.

Example console_only_leaves_no_trace :
  let self := init_logger false true false "" true demo_world in
  let w := init_world false true false true demo_world in
  let run := run_ops self [Call INFO "a"; Flush false; Call WARN "b"; Flush true] w in
  __init__ false true false "" true demo_world = Ok self w /\
  fst <$> returned run = Some [[]; []] /\
  w_fs (world_after run) = ∅ /\
  w_console (world_after run)
    = ["[gray][10:00][/][red bold]::[/][blue bold]INFO[/][red bold]::[/]a";
       "[gray][10:00][/][red bold]::[/][yellow bold]WARN[/][red bold]::[/]b"].
Proof. by vm_compute. Qed.

(* ================================================================= *)
(** ** Strings *)

Section string_facts.

Lemma sapp_nil_l (s : string) : "" +:+ s = s.
Proof. reflexivity. Qed.

Lemma sapp_cons (c : ascii) (s t : string) : String c s +:+ t = String c (s +:+ t).
Proof. reflexivity. Qed.

Lemma sapp_nil_r (s : string) : s +:+ "" = s.
Proof. induction s as [|c s IH]; [done|]. by rewrite sapp_cons, IH. Qed.

Lemma sapp_assoc (s t u : string) : (s +:+ t) +:+ u = s +:+ t +:+ u.
Proof. induction s as [|c s IH]; [done|]. by rewrite !sapp_cons, IH. Qed.

Lemma length_sapp (s t : string) :
  String.length (s +:+ t) = String.length s + String.length t.
Proof. induction s as [|c s IH]; [done|]. rewrite sapp_cons. simpl. by rewrite IH. Qed.

Lemma split_nonempty sep s : PyStr.split sep s ≠ [].
Proof.
  destruct s as [|c s]; simpl; [done|].
  destruct (Ascii.eqb c sep); [done|]. by destruct (PyStr.split sep s).
Qed.

(** A piece without the separator stays glued to what follows it. *)
Lemma split_app_nosep sep a r :
  PyStr.occurs sep a = false ->
  PyStr.split sep (a +:+ r) =
    match PyStr.split sep r with
    | [] => [a]
    | h :: t => (a +:+ h) :: t
    end.
Proof.
  induction a as [|c a IH]; intros Hocc.
  - rewrite sapp_nil_l. destruct (PyStr.split sep r) eqn:E; [|done].
    by destruct (split_nonempty sep r).
  - simpl in Hocc. apply orb_false_iff in Hocc as [Hc Ha].
    rewrite sapp_cons. simpl. rewrite Hc, (IH Ha).
    by destruct (PyStr.split sep r).
Qed.

Lemma split_sep sep r :
  PyStr.split sep (String sep r) = "" :: PyStr.split sep r.
Proof. simpl. by rewrite Ascii.eqb_refl. Qed.

Lemma split_nil sep : PyStr.split sep "" = [""].
Proof. reflexivity. Qed.

Lemma digits_no_char c s :
  PyStr.is_digit c = false -> PyStr.all_digits s = true -> PyStr.occurs c s = false.
Proof.
  intros Hc. induction s as [|d s IH]; simpl; [done|].
  intros [Hd Hs]%andb_true_iff. rewrite (IH Hs), orb_false_r.
  apply Ascii.eqb_neq. intros ->. congruence.
Qed.

Lemma all_digits_sapp s t :
  PyStr.all_digits (s +:+ t) = PyStr.all_digits s && PyStr.all_digits t.
Proof.
  induction s as [|c s IH]; [done|].
  rewrite sapp_cons. simpl. by rewrite IH, andb_assoc.
Qed.

End string_facts.

(* ================================================================= *)
(** ** Decimal formatting *)

Section formatting.

Lemma digit_char_is_digit (n : N) : PyStr.is_digit (digit_char (n mod 10)) = true.
Proof.
  assert (n mod 10 < 10)%N as Hlt by (apply N.mod_upper_bound; lia).
  generalize dependent (n mod 10)%N. intros d Hlt.
  unfold PyStr.is_digit, digit_char.
  rewrite N_ascii_embedding by lia.
  apply andb_true_iff. split; apply N.leb_le; lia.
Qed.

Lemma dec_digits_all_digits w n : PyStr.all_digits (dec_digits w n) = true.
Proof.
  revert n. induction w as [|w IH]; intros n; [done|].
  simpl. rewrite all_digits_sapp, IH. simpl.
  by rewrite digit_char_is_digit.
Qed.

Lemma dec_digits_length w n : String.length (dec_digits w n) = w.
Proof.
  revert n. induction w as [|w IH]; intros n; [done|].
  simpl. rewrite length_sapp, IH. simpl. lia.
Qed.

Lemma fmt0_all_digits w n : PyStr.all_digits (fmt0 w n) = true.
Proof. apply dec_digits_all_digits. Qed.

Lemma ndigits_aux_bound fuel : forall w n,
  (n < 10 ^ N.of_nat (S w))%N -> ndigits_aux fuel n <= S w.
Proof.
  induction fuel as [|fuel IH]; intros w n Hn; simpl; [lia|].
  destruct (N.ltb_spec n 10) as [Hlt|Hge]; [lia|].
  destruct w as [|w].
  - change (10 ^ N.of_nat 1)%N with 10%N in Hn. lia.
  - apply le_n_S, IH.
    apply N.Div0.div_lt_upper_bound.
    replace (N.of_nat (S (S w))) with (N.succ (N.of_nat (S w))) in Hn by lia.
    by rewrite N.pow_succ_r' in Hn.
Qed.

(** Within its field width a number is printed on exactly that width. *)
Lemma fmt0_length w n :
  (n < 10 ^ N.of_nat (S w))%N -> String.length (fmt0 (S w) n) = S w.
Proof.
  intros Hn. unfold fmt0. rewrite dec_digits_length.
  pose proof (ndigits_aux_bound (N.to_nat (N.log2 n)) w n Hn).
  unfold ndigits. lia.
Qed.

End formatting.

(* ================================================================= *)
(** ** The timestamp string *)

Section timestamp_shape.

(** The six numeric fields of a printed datetime, as strings of digits. *)
Variables y mo d h mi s : string.
Hypothesis Hy : PyStr.all_digits y = true.
Hypothesis Hmo : PyStr.all_digits mo = true.
Hypothesis Hd : PyStr.all_digits d = true.
Hypothesis Hh : PyStr.all_digits h = true.
Hypothesis Hmi : PyStr.all_digits mi = true.
Hypothesis Hs : PyStr.all_digits s = true.

Lemma split_lit_sep sep r :
  PyStr.split sep (String sep "" +:+ r) = "" :: PyStr.split sep r.
Proof. apply split_sep. Qed.

Lemma split_nosep sep a : PyStr.occurs sep a = false -> PyStr.split sep a = [a].
Proof.
  intros Ha. rewrite <- (sapp_nil_r a) at 1.
  rewrite split_app_nosep by done. simpl. by rewrite sapp_nil_r.
Qed.

Ltac no_sep :=
  first [ reflexivity | apply digits_no_char; [reflexivity | assumption] ].

Ltac split_pieces :=
  repeat first [ rewrite split_app_nosep by no_sep
               | rewrite split_lit_sep
               | rewrite split_nosep by no_sep ];
  simpl.

Lemma split_dot_whole :
  PyStr.split "." (date_time y mo d h mi s +:+ "") = [date_time y mo d h mi s].
Proof. rewrite sapp_nil_r. unfold date_time. by split_pieces. Qed.

Lemma split_dot_fraction frac :
  exists rest,
    PyStr.split "." (date_time y mo d h mi s +:+ "." +:+ frac)
    = date_time y mo d h mi s :: rest.
Proof.
  unfold date_time. rewrite !sapp_assoc. split_pieces.
  rewrite sapp_nil_r. eauto.
Qed.

Lemma split_space_date_time :
  PyStr.split " " (date_time y mo d h mi s)
  = [y +:+ "-" +:+ mo +:+ "-" +:+ d; h +:+ ":" +:+ mi +:+ ":" +:+ s].
Proof.
  unfold date_time. split_pieces. by rewrite ?sapp_nil_r.
Qed.

Lemma split_colon_time :
  PyStr.split ":" (h +:+ ":" +:+ mi +:+ ":" +:+ s) = [h; mi; s].
Proof. split_pieces. by rewrite !sapp_nil_r. Qed.

End timestamp_shape.

Lemma str_date_time dt :
  str dt = timestamp_of false dt
           +:+ (if (microsecond dt =? 0)%N then "" else "." +:+ fmt0 6 (microsecond dt)).
Proof. unfold str, timestamp_of, date_time. by rewrite !sapp_assoc. Qed.

(** [_make_timestamp_string] never raises: it reads the clock once and
    returns the reading in the format chosen at construction. *)
Lemma make_timestamp_run self w :
  _make_timestamp_string self w =
    Ok (timestamp_of (short_timestamp self) (w_clock w (w_reads w)))
       (with_reads (S (w_reads w)) w).
Proof.
  unfold _make_timestamp_string, bind, datetime_now, index.
  set (dt := w_clock w (w_reads w)).
  assert (PyStr.split "." (str dt) !! 0 = Some (timestamp_of false dt)) as ->.
  { rewrite str_date_time. unfold timestamp_of.
    destruct (microsecond dt =? 0)%N.
    - by rewrite split_dot_whole by apply fmt0_all_digits.
    - edestruct split_dot_fraction as [rest ->]; try apply fmt0_all_digits. done. }
  destruct (short_timestamp self); [|done].
  unfold timestamp_of at 1.
  rewrite split_space_date_time by apply fmt0_all_digits. simpl.
  by rewrite split_colon_time by apply fmt0_all_digits.
Qed.

Section shapes.

Lemma matches_digits a : forall k p r,
  PyStr.all_digits a = true -> String.length a = k ->
  matches (digits k ++ p) (a +:+ r) = matches p r.
Proof.
  induction a as [|c a IH]; intros k p r Ha <-; [done|].
  simpl in Ha. apply andb_true_iff in Ha as [Hc Ha].
  rewrite sapp_cons. simpl. rewrite Hc. simpl. by apply IH.
Qed.

Lemma matches_digits_end a k :
  PyStr.all_digits a = true -> String.length a = k -> matches (digits k) a = true.
Proof.
  intros Ha Hk. rewrite <- (sapp_nil_r a), <- (app_nil_r (digits k)).
  by rewrite matches_digits.
Qed.

Lemma matches_char c p r : matches (PChar c :: p) (String c "" +:+ r) = matches p r.
Proof. simpl. by rewrite Ascii.eqb_refl. Qed.

Lemma wf_bounds dt :
  wf dt = true ->
  (year dt < 10000 /\ month dt < 100 /\ day dt < 100 /\
   hour dt < 100 /\ minute dt < 100 /\ second dt < 100)%N.
Proof.
  unfold wf. rewrite !andb_true_iff, !N.leb_le, !N.ltb_lt. lia.
Qed.

Lemma fmt0_2_length n : (n < 100)%N -> String.length (fmt0 2 n) = 2.
Proof. intros. by apply fmt0_length. Qed.

Lemma fmt0_4_length n : (n < 10000)%N -> String.length (fmt0 4 n) = 4.
Proof. intros. by apply fmt0_length. Qed.

Lemma timestamp_of_matches (short : bool) dt :
  wf dt = true ->
  matches (if short then pat_short else pat_full) (timestamp_of short dt) = true.
Proof.
  intros (Hy & Hmo & Hd & Hh & Hmi & Hs)%wf_bounds.
  destruct short; unfold timestamp_of, date_time, pat_short, pat_full;
    repeat first
      [ rewrite matches_digits
          by first [ apply fmt0_all_digits
                   | by apply fmt0_2_length | by apply fmt0_4_length ]
      | rewrite matches_char ];
    apply matches_digits_end;
    first [ apply fmt0_all_digits | by apply fmt0_2_length ].
Qed.

End shapes.

(** C7.  Every call of [_make_timestamp_string] reads the clock anew -- two
    calls in a row return the renderings of two successive readings -- and
    what it returns has the shape HH:MM with [short_timestamp] and
    YYYY-MM-DD HH:MM:SS, without any fraction of a second, otherwise. *)
Theorem timestamp_string_format self w :
  wf (w_clock w (w_reads w)) = true ->
  wf (w_clock w (S (w_reads w))) = true ->
  exists ts1 w1 ts2 w2,
    _make_timestamp_string self w = Ok ts1 w1 /\
    _make_timestamp_string self w1 = Ok ts2 w2 /\
    ts1 = timestamp_of (short_timestamp self) (w_clock w (w_reads w)) /\
    ts2 = timestamp_of (short_timestamp self) (w_clock w (S (w_reads w))) /\
    w_reads w1 = S (w_reads w) /\ w_reads w2 = S (S (w_reads w)) /\
    matches (if short_timestamp self then pat_short else pat_full) ts1 = true /\
    matches (if short_timestamp self then pat_short else pat_full) ts2 = true.
Proof.
  intros Hwf1 Hwf2. do 4 eexists.
  rewrite !make_timestamp_run. simpl.
  repeat split; by apply timestamp_of_matches.
Qed.

(* ================================================================= *)
(** ** One emit *)

Ltac str_eq := rewrite ?sapp_assoc; reflexivity.

Lemma truthy_decide (s : string) :
  PyStr.truthy s = if decide (s = "") then false else true.
Proof. by destruct s. Qed.

(** The f-strings of [_echo] are the specification's joined fields. *)
Lemma bare_with_prefix ts pfx m_type msg :
  PyStr.truthy pfx = true ->
  "[" +:+ ts +:+ "]::[" +:+ pfx +:+ "]::" +:+ m_type +:+ "::" +:+ msg +:+ newline
  = spec_line ts pfx m_type msg.
Proof.
  intros Hp. unfold spec_line. rewrite truthy_decide in Hp.
  destruct (decide (pfx = "")); [done|]. simpl. str_eq.
Qed.

Lemma bare_without_prefix ts pfx m_type msg :
  PyStr.truthy pfx = false ->
  "[" +:+ ts +:+ "]::" +:+ m_type +:+ "::" +:+ msg +:+ newline
  = spec_line ts pfx m_type msg.
Proof.
  intros Hp. unfold spec_line. rewrite truthy_decide in Hp.
  destruct (decide (pfx = "")); [|done]. simpl. str_eq.
Qed.

Lemma console_with_prefix ts pfx m_type msg :
  PyStr.truthy pfx = true ->
  "[gray][" +:+ ts +:+ "][/][red bold]::[/][green bold][" +:+ pfx
  +:+ "][/][red bold]::[/][" +:+ color_code_of m_type +:+ "]" +:+ m_type
  +:+ "[/][red bold]::[/]" +:+ msg
  = markup (console_segments pfx ts m_type msg).
Proof.
  intros Hp. unfold console_segments. rewrite Hp. simpl.
  rewrite sapp_nil_r. str_eq.
Qed.

Lemma console_without_prefix ts pfx m_type msg :
  PyStr.truthy pfx = false ->
  "[gray][" +:+ ts +:+ "][/][red bold]::[/][" +:+ color_code_of m_type
  +:+ "]" +:+ m_type +:+ "[/][red bold]::[/]" +:+ msg
  = markup (console_segments pfx ts m_type msg).
Proof.
  intros Hp. unfold console_segments. rewrite Hp. simpl.
  rewrite sapp_nil_r. str_eq.
Qed.

(** What one emit does to the world of a logger in good standing. *)
Lemma echo_run self w msg m_type :
  logger_inv self w ->
  let r := w_reads w in
  let line := line_at self (w_clock w) r m_type msg in
  let shown n :=
    markup (console_segments (prefix self)
              (timestamp_of (short_timestamp self) (w_clock w n)) m_type msg) in
  exists w',
    _echo self msg m_type w = Ok tt w' /\
    w_cwd w' = w_cwd w /\ w_clock w' = w_clock w /\
    if write_to_file self then
      w_reads w' = S (S r) /\
      w_console w' = w_console w ++ [shown (S r)] /\
      w_fs w' = <[log_file_path self :=
                    File (file_content w (log_file_path self) +:+ line)]> (w_fs w) /\
      w_heap w' = alter (fun xs => xs ++ [line]) (log_list_to_send self)
                    (alter (fun xs => xs ++ [line]) (log_list self) (w_heap w))
    else
      w_reads w' = S r /\
      w_console w' = w_console w ++ [shown r] /\
      w_fs w' = w_fs w /\ w_heap w' = w_heap w.
Proof.
  intros [_ _ _ Hfile] r line shown. subst shown line r.
  unfold _echo, line_at, bind.
  destruct (write_to_file self) eqn:Ewtf.
  - specialize (Hfile eq_refl). unfold is_dir in Hfile.
    unfold file_content, _open_log_file, py_open, file_write, file_close,
      list_append, console_print, ret.
    destruct (w_fs w !! log_file_path self) as [[|c]|] eqn:Efs; try done;
      destruct (PyStr.truthy (prefix self)) eqn:Epfx;
      cbn beta;
      repeat (rewrite ?make_timestamp_run, ?Efs, ?lookup_insert_eq; simpl);
      eexists; (split; [reflexivity|]); simpl;
      rewrite ?insert_insert_eq;
      first [ rewrite console_with_prefix, bare_with_prefix by done
            | rewrite (console_without_prefix _ (prefix self)),
                (bare_without_prefix _ (prefix self)) by done ];
      done.
  - unfold ret, console_print.
    destruct (PyStr.truthy (prefix self)) eqn:Epfx;
      cbn beta; rewrite make_timestamp_run; simpl;
      eexists; (split; [reflexivity|]); simpl.
    + by rewrite console_with_prefix.
    + by rewrite (console_without_prefix _ (prefix self)).
Qed.

(* ================================================================= *)
(** ** Rich's markup on the template of [_echo] *)

Section rich_facts.












End rich_facts.

Section template_facts.















End template_facts.

(* ================================================================= *)
(** ** Construction *)

Lemma init_run wtf ind ses pfx sh w0 :
  (ind && wtf = true -> forall c, w_fs w0 !! (w_cwd w0 +:+ "/logs") <> Some (File c)) ->
  (wtf = true -> after_dir_step wtf ind w0 !! init_path ind ses w0 <> Some Dir) ->
  __init__ wtf ind ses pfx sh w0 =
    Ok (init_logger wtf ind ses pfx sh w0) (init_world wtf ind ses sh w0).
Proof.
  intros Hdir Hpath.
  unfold __init__, init_logger, init_world, init_path, after_dir_step, file_name in *.
  unfold bind, getcwd, isdir, mkdir, datetime_now, list_new,
    _open_log_file, py_open, file_write, file_close, ret.
  destruct wtf.
  - specialize (Hpath eq_refl).
    destruct ind, ses; simpl in *.
    all: try specialize (Hdir eq_refl).
    all: try (destruct (w_fs w0 !! (w_cwd w0 +:+ "/logs")) as [[|c]|] eqn:Elogs;
              [ | by destruct (Hdir c) | ]; simpl; rewrite ?Elogs; simpl).
    all: match goal with
         | |- context [match ?fs !! ?p with _ => _ end] =>
             destruct (fs !! p) as [[|?]|] eqn:Epath; [by destruct Hpath|..]
         end; simpl.
    all: rewrite make_timestamp_run; simpl.
    all: rewrite lookup_insert_eq; simpl.
    all: unfold with_fs, with_reads, with_heap, header_line; simpl.
    all: rewrite insert_insert_eq, <- ?app_assoc, ?length_app, ?Nat.add_0_r, ?Nat.add_1_r.
    all: done.
  - destruct ind, ses; simpl;
      try destruct (w_fs w0 !! (w_cwd w0 +:+ "/logs")) as [[|?]|]; simpl.
    all: unfold with_fs, with_reads, with_heap; simpl.
    all: by rewrite <- ?app_assoc, ?length_app, ?Nat.add_0_r, ?Nat.add_1_r.
Qed.

Lemma init_raise_logs wtf ind ses pfx sh w0 c :
  ind && wtf = true ->
  w_fs w0 !! (w_cwd w0 +:+ "/logs") = Some (File c) ->
  __init__ wtf ind ses pfx sh w0 = Raise FileExistsError w0.
Proof.
  intros [-> ->]%andb_true_iff Hlogs.
  unfold __init__, bind, getcwd, isdir, mkdir. by rewrite Hlogs; simpl; rewrite Hlogs.
Qed.

Lemma init_raise_path wtf ind ses pfx sh w0 :
  wtf = true ->
  (ind = true -> forall c, w_fs w0 !! (w_cwd w0 +:+ "/logs") <> Some (File c)) ->
  after_dir_step wtf ind w0 !! init_path ind ses w0 = Some Dir ->
  exists w, __init__ wtf ind ses pfx sh w0 = Raise IsADirectoryError w.
Proof.
  intros -> Hdir Hpath.
  unfold __init__, init_path, after_dir_step, file_name in *.
  unfold bind, getcwd, isdir, mkdir, datetime_now, list_new,
    _open_log_file, py_open, ret.
  destruct ind, ses; simpl in *.
  all: try specialize (Hdir eq_refl).
  all: try (destruct (w_fs w0 !! (w_cwd w0 +:+ "/logs")) as [[|c]|] eqn:Elogs;
            [ | by destruct (Hdir c) | ]; simpl; rewrite ?Elogs; simpl).
  all: rewrite Hpath; eauto.
Qed.

(** Construction either succeeds with the state computed above, or stops
    at one of its two file-system operations. *)
Lemma init_inversion wtf ind ses pfx sh w0 self w :
  __init__ wtf ind ses pfx sh w0 = Ok self w ->
  self = init_logger wtf ind ses pfx sh w0 /\ w = init_world wtf ind ses sh w0.
Proof.
  intros Hrun.
  destruct (ind && wtf) eqn:Eboth.
  - destruct (w_fs w0 !! (w_cwd w0 +:+ "/logs")) as [[|c]|] eqn:Elogs.
    2: { by rewrite (init_raise_logs _ _ _ _ _ _ c) in Hrun. }
    all: apply andb_true_iff in Eboth as [-> ->].
    all: destruct (decide (after_dir_step true true w0 !! init_path true ses w0 = Some Dir))
           as [Hp|Hp].
    all: try (destruct (init_raise_path true true ses pfx sh w0 eq_refl) as [w' Hw'];
              [intros _ c; congruence | done | congruence]).
    all: rewrite init_run in Hrun; [by simplify_eq | intros _ c; congruence | done].
  - destruct wtf.
    + destruct ind; [done|].
      destruct (decide (after_dir_step true false w0 !! init_path false ses w0 = Some Dir))
        as [Hp|Hp].
      * destruct (init_raise_path true false ses pfx sh w0 eq_refl) as [w' Hw'];
          [done | done | congruence].
      * rewrite init_run in Hrun; [by simplify_eq | done | done].
    + rewrite init_run in Hrun; [by simplify_eq | by rewrite andb_false_r | done].
Qed.

Lemma text_of_lines_app l1 l2 :
  text_of_lines (l1 ++ l2) = text_of_lines l1 +:+ text_of_lines l2.
Proof.
  induction l1 as [|x l1 IH]; [done|].
  simpl. by rewrite IH, sapp_assoc.
Qed.

Section heap_facts.

Implicit Types (h : list (list string)) (l : loc).

Lemma lookup_total_add_line h l line :
  l < length h ->
  alter (fun xs => xs ++ [line]) l h !!! l = h !!! l ++ [line].
Proof. intros. by rewrite list_lookup_total_alter_eq. Qed.

Lemma lookup_total_snoc h (x : list string) : (h ++ [x]) !!! length h = x.
Proof.
  apply list_lookup_total_correct.
  rewrite lookup_app_r by lia. by rewrite Nat.sub_diag.
Qed.

Lemma lookup_total_app_l h h' l : l < length h -> (h ++ h') !!! l = h !!! l.
Proof.
  intros Hl. destruct (lookup_lt_is_Some_2 h l Hl) as [x Hx].
  rewrite (list_lookup_total_correct _ _ _ Hx).
  apply list_lookup_total_correct. by rewrite lookup_app_l.
Qed.

End heap_facts.

(** One emit, seen from outside: it succeeds, keeps the logger in good
    standing, and adds the emitted line (if any) at the end of the file and
    of both buffers, touching no other list and no other file. *)
Lemma echo_step self w msg m_type :
  logger_inv self w ->
  exists w',
    _echo self msg m_type w = Ok tt w' /\
    logger_inv self w' /\
    w_cwd w' = w_cwd w /\ w_clock w' = w_clock w /\
    w_reads w' = w_reads w + (if write_to_file self then 2 else 1) /\
    length (w_heap w') = length (w_heap w) /\
    deref w' (log_list self) = deref w (log_list self) ++ emitted self w m_type msg /\
    deref w' (log_list_to_send self)
      = deref w (log_list_to_send self) ++ emitted self w m_type msg /\
    (forall l, l <> log_list self -> l <> log_list_to_send self ->
               deref w' l = deref w l) /\
    file_content w' (log_file_path self)
      = file_content w (log_file_path self)
        +:+ text_of_lines (emitted self w m_type msg) /\
    (forall p, p <> log_file_path self -> w_fs w' !! p = w_fs w !! p) /\
    (write_to_file self = false -> w_fs w' = w_fs w).
Proof.
  intros Hinv.
  destruct (echo_run self w msg m_type Hinv) as (w' & Hrun & Hcwd & Hclk & Hrest).
  destruct Hinv as [Hall Hpend Hne Hfile].
  exists w'. split; [done|]. unfold emitted, deref, file_content, is_dir in *.
  destruct (write_to_file self) eqn:Ewtf.
  - destruct Hrest as (Hreads & _ & Hfs & Hheap). rewrite Hfs, Hheap.
    split_and!; try done.
    + split; rewrite ?Hheap, ?length_alter; try done.
      intros _. unfold is_dir. by rewrite Hfs, lookup_insert_eq.
    + lia.
    + by rewrite !length_alter.
    + rewrite list_lookup_total_alter_ne by done.
      by rewrite lookup_total_add_line.
    + rewrite lookup_total_add_line by (by rewrite length_alter).
      by rewrite list_lookup_total_alter_ne by done.
    + intros l ? ?. by rewrite !list_lookup_total_alter_ne by done.
    + rewrite lookup_insert_eq. simpl. by rewrite sapp_nil_r.
    + intros p ?. by rewrite lookup_insert_ne.
  - destruct Hrest as (Hreads & _ & Hfs & Hheap). rewrite Hfs, Hheap.
    split_and!; try done.
    + split; rewrite ?Hheap; try done. congruence.
    + lia.
    + by rewrite app_nil_r.
    + by rewrite app_nil_r.
    + simpl. by rewrite sapp_nil_r.
Qed.

(* ================================================================= *)
(** ** Flush *)

Lemma flush_run self from_start w :
  flush_logs self from_start w =
    Ok (length (w_heap w), set_log_list_to_send (S (length (w_heap w))) self)
       (with_heap (w_heap w
                   ++ [deref w (if from_start then log_list self
                                else log_list_to_send self); []]) w).
Proof.
  unfold flush_logs, bind, list_copy, list_new, ret. simpl.
  rewrite length_app, Nat.add_1_r, <- app_assoc.
  by destruct from_start.
Qed.

Lemma flush_step self from_start w :
  logger_inv self w ->
  exists r self' w',
    flush_logs self from_start w = Ok (r, self') w' /\
    logger_inv self' w' /\
    self' = set_log_list_to_send (log_list_to_send self') self /\
    r <> log_list self' /\ r <> log_list_to_send self' /\
    r = length (w_heap w) /\
    w_cwd w' = w_cwd w /\ w_clock w' = w_clock w /\ w_reads w' = w_reads w /\
    w_fs w' = w_fs w /\ w_console w' = w_console w /\
    deref w' r = deref w (if from_start then log_list self else log_list_to_send self) /\
    deref w' (log_list_to_send self') = [] /\
    (forall l, l < length (w_heap w) -> deref w' l = deref w l).
Proof.
  intros [Hall Hpend Hne Hfile].
  do 3 eexists. split; [apply flush_run|].
  unfold deref. simpl.
  split_and!; try done; try lia.
  - split; simpl; rewrite ?length_app; simpl; try lia. done.
  - apply list_lookup_total_correct. by rewrite list_lookup_middle.
  - apply list_lookup_total_correct.
    rewrite lookup_app_r by lia. by replace (S _ - _) with 1 by lia.
  - intros l Hl. by apply lookup_total_app_l.
Qed.

(** A freshly constructed logger is in good standing, with two empty
    buffers; it has written its header, or left the file system alone. *)
Lemma init_post wtf ind ses pfx sh w0 self w :
  __init__ wtf ind ses pfx sh w0 = Ok self w ->
  logger_inv self w /\
  deref w (log_list self) = [] /\ deref w (log_list_to_send self) = [] /\
  self = init_logger wtf ind ses pfx sh w0 /\
  w = init_world wtf ind ses sh w0.
Proof.
  intros [-> ->]%init_inversion. unfold deref. simpl.
  split_and!; try done.
  - split; simpl; rewrite ?length_app; simpl; try lia.
    intros ->. unfold is_dir. simpl. by rewrite lookup_insert_eq.
  - apply list_lookup_total_correct. by rewrite list_lookup_middle.
  - apply list_lookup_total_correct.
    rewrite lookup_app_r by lia. by replace (S _ - _) with 1 by lia.
Qed.

(** The invariant of the two buffers, by induction on how the state was
    reached. *)
Lemma reachable_buffers self w hist mark :
  reachable self w hist mark ->
  logger_inv self w /\
  deref w (log_list self) = hist /\
  deref w (log_list_to_send self) = drop mark hist /\
  mark <= length hist.
Proof.
  induction 1 as [wtf ind ses pfx sh w0 self w Hinit
                 | self w hist mark msg m_type w' _ (Hinv & Hall & Hpend & Hmark) Hrun
                 | self w hist mark b r self' w' _ (Hinv & Hall & Hpend & Hmark) Hrun].
  - apply init_post in Hinit as (? & ? & ? & _). by split_and!.
  - destruct (echo_step self w msg m_type Hinv)
      as (w2 & Hrun' & Hinv' & _ & _ & _ & _ & Hall' & Hpend' & _).
    rewrite Hrun in Hrun'. injection Hrun' as <-.
    split_and!; [done| | |].
    + by rewrite Hall', Hall.
    + by rewrite Hpend', Hpend, drop_app_le.
    + rewrite length_app. lia.
  - destruct (flush_step self b w Hinv)
      as (r2 & self2 & w2 & Hrun' & Hinv' & Hself & _ & _ & _ & _ & _ & _ & _ & _
          & _ & Hempty & Hold).
    rewrite Hrun in Hrun'. injection Hrun' as <- <- <-.
    split_and!; [done| | |done].
    + rewrite Hself. simpl. rewrite Hold; [done|]. by destruct Hinv.
    + by rewrite Hempty, drop_all.
Qed.

(** C5.  In every reachable state the pending buffer is the part of the
    history that came after the last flush (everything, before the first
    one), hence a suffix of the full history. *)
Theorem pending_is_suffix self w hist mark :
  reachable self w hist mark ->
  deref w (log_list self) = hist /\
  deref w (log_list_to_send self) = drop mark (deref w (log_list self)) /\
  deref w (log_list_to_send self) `suffix_of` deref w (log_list self).
Proof.
  intros (_ & Hall & Hpend & _)%reachable_buffers.
  rewrite Hall, Hpend. split_and!; [done..|]. apply suffix_drop.
Qed.

(** C3.  From any reachable state, [flush_logs(from_start=True)] returns a
    new list holding the whole history; afterwards the pending buffer is
    empty and the full buffer, still the same object, is unchanged. *)
Theorem flush_from_start_full_history self w hist mark :
  reachable self w hist mark ->
  exists r self' w',
    flush_logs self true w = Ok (r, self') w' /\
    deref w' r = hist /\
    deref w' (log_list_to_send self') = [] /\
    log_list self' = log_list self /\
    deref w' (log_list self') = hist /\
    r <> log_list self' /\ r <> log_list_to_send self'.
Proof.
  intros (Hinv & Hall & _)%reachable_buffers.
  destruct (flush_step self true w Hinv)
    as (r & self' & w' & Hrun & _ & Hself & Hr1 & Hr2 & _ & _ & _ & _ & _ & _
        & Hret & Hempty & Hold).
  exists r, self', w'. rewrite Hret, Hall.
  assert (log_list self' = log_list self) as Hsame by (by rewrite Hself).
  split_and!; try done.
  rewrite Hsame, Hold; [done|]. by destruct Hinv.
Qed.

(* ================================================================= *)
(** ** Runs of operations *)

Lemma call_is_echo self l msg : call self l msg = _echo self msg (level_tag l).
Proof. by destruct l. Qed.

Lemma lines_of_rebound self l clock r calls :
  lines_of (set_log_list_to_send l self) clock r calls = lines_of self clock r calls.
Proof.
  revert r. induction calls as [|[lv msg] calls IH]; intros r; [done|].
  simpl. by rewrite IH.
Qed.

Lemma buffer_lines_nil self clock r : buffer_lines self clock r [] = [].
Proof. unfold buffer_lines. by destruct (write_to_file self). Qed.

Lemma buffer_lines_cons self clock r l msg calls :
  buffer_lines self clock r ((l, msg) :: calls)
  = (if write_to_file self then [line_at self clock r (level_tag l) msg] else [])
    ++ buffer_lines self clock (r + if write_to_file self then 2 else 1) calls.
Proof. unfold buffer_lines. by destruct (write_to_file self). Qed.

(** A run of leveled calls never fails on a logger in good standing, and
    appends its lines, in call order, to the file and to both buffers. *)
Lemma run_calls_step calls : forall self w,
  logger_inv self w ->
  exists w',
    run_calls self calls w = Ok tt w' /\
    logger_inv self w' /\
    w_cwd w' = w_cwd w /\ w_clock w' = w_clock w /\
    w_reads w' = w_reads w + (if write_to_file self then 2 else 1) * length calls /\
    length (w_heap w') = length (w_heap w) /\
    deref w' (log_list self)
      = deref w (log_list self) ++ buffer_lines self (w_clock w) (w_reads w) calls /\
    deref w' (log_list_to_send self)
      = deref w (log_list_to_send self) ++ buffer_lines self (w_clock w) (w_reads w) calls /\
    file_content w' (log_file_path self)
      = file_content w (log_file_path self)
        +:+ text_of_lines (buffer_lines self (w_clock w) (w_reads w) calls) /\
    (forall p, p <> log_file_path self -> w_fs w' !! p = w_fs w !! p) /\
    (write_to_file self = false -> w_fs w' = w_fs w).
Proof.
  induction calls as [|[l msg] calls IH]; intros self w Hinv.
  - exists w. rewrite buffer_lines_nil. simpl.
    by rewrite !app_nil_r, Nat.mul_0_r, Nat.add_0_r, sapp_nil_r.
  - destruct (echo_step self w msg (level_tag l) Hinv)
      as (w1 & Hrun1 & Hinv1 & Hcwd1 & Hclk1 & Hreads1 & Hlen1 & Hall1 & Hpend1
          & _ & Hfile1 & Hfs1 & Hsame1).
    destruct (IH self w1 Hinv1)
      as (w2 & Hrun2 & Hinv2 & Hcwd2 & Hclk2 & Hreads2 & Hlen2 & Hall2 & Hpend2
          & Hfile2 & Hfs2 & Hsame2).
    exists w2. simpl. unfold bind. rewrite call_is_echo, Hrun1, Hrun2.
    rewrite buffer_lines_cons.
    rewrite Hclk1, Hreads1 in Hall2, Hpend2, Hfile2.
    unfold emitted in *.
    split_and!; try done; try congruence.
    + rewrite Hreads2, Hreads1. destruct (write_to_file self); lia.
    + by rewrite Hall2, Hall1, <- app_assoc.
    + by rewrite Hpend2, Hpend1, <- app_assoc.
    + by rewrite Hfile2, Hfile1, text_of_lines_app, sapp_assoc.
    + intros p Hp. by rewrite Hfs2, Hfs1.
    + intros Hwtf. by rewrite Hsame2, Hsame1.
Qed.

(** A logger with nothing pending really has nothing pending. *)
Lemma just_flushed_inv self w :
  just_flushed self w ->
  logger_inv self w /\ deref w (log_list_to_send self) = [].
Proof.
  intros [wtf ind ses pfx sh w0 self' w' Hinit | self0 w0 b r self' w' Hinv Hrun].
  - by apply init_post in Hinit as (? & _ & ? & _).
  - destruct (flush_step self0 b w0 Hinv)
      as (r2 & self2 & w2 & Hrun' & Hinv' & _ & _ & _ & _ & _ & _ & _ & _ & _
          & _ & Hempty & _).
    rewrite Hrun in Hrun'. by injection Hrun' as <- <- <-.
Qed.

Lemma buffer_lines_rebound self l clock r calls :
  buffer_lines (set_log_list_to_send l self) clock r calls
  = buffer_lines self clock r calls.
Proof. unfold buffer_lines. simpl. by rewrite lines_of_rebound. Qed.

(** Any client program runs to its end on a logger in good standing.  Its
    calls extend the file and the full buffer by their lines, and every
    batch a flush hands back is made of lines of the full buffer. *)
Lemma run_ops_step ops : forall self w,
  logger_inv self w ->
  deref w (log_list_to_send self) ⊆ deref w (log_list self) ->
  exists batches self' w',
    run_ops self ops w = Ok (batches, self') w' /\
    logger_inv self' w' /\
    self' = set_log_list_to_send (log_list_to_send self') self /\
    w_cwd w' = w_cwd w /\ w_clock w' = w_clock w /\
    deref w' (log_list self)
      = deref w (log_list self)
        ++ buffer_lines self (w_clock w) (w_reads w) (calls_of ops) /\
    deref w' (log_list_to_send self') ⊆ deref w' (log_list self) /\
    file_content w' (log_file_path self)
      = file_content w (log_file_path self)
        +:+ text_of_lines (buffer_lines self (w_clock w) (w_reads w) (calls_of ops)) /\
    (write_to_file self = false -> w_fs w' = w_fs w) /\
    (forall b, b ∈ batches -> b ⊆ deref w' (log_list self)).
Proof.
  induction ops as [|[l msg|from_start] ops IH]; intros self w Hinv Hsub.
  - exists [], self, w. simpl. rewrite buffer_lines_nil, app_nil_r, sapp_nil_r.
    split_and!; try done.
    + by destruct self.
    + intros b Hb. by apply elem_of_nil in Hb.
  - destruct (echo_step self w msg (level_tag l) Hinv)
      as (w1 & Hrun1 & Hinv1 & Hcwd1 & Hclk1 & Hreads1 & _ & Hall1 & Hpend1
          & _ & Hfile1 & _ & Hsame1).
    destruct (IH self w1 Hinv1)
      as (batches & self' & w2 & Hrun2 & Hinv2 & Hself & Hcwd2 & Hclk2 & Hall2
          & Hsub2 & Hfile2 & Hsame2 & Hbatches).
    { rewrite Hall1, Hpend1. intros x [?|?]%elem_of_app; apply elem_of_app; auto. }
    exists batches, self', w2. simpl. unfold bind.
    rewrite call_is_echo, Hrun1, Hrun2, buffer_lines_cons.
    rewrite Hclk1, Hreads1 in Hall2, Hfile2. unfold emitted in *.
    split_and!; try done; try congruence.
    + by rewrite Hall2, Hall1, <- app_assoc.
    + by rewrite Hfile2, Hfile1, text_of_lines_app, sapp_assoc.
    + intros Hwtf. by rewrite Hsame2, Hsame1.
  - destruct (flush_step self from_start w Hinv)
      as (r & self1 & w1 & Hrun1 & Hinv1 & Hself1 & _ & _ & _ & Hcwd1 & Hclk1
          & Hreads1 & Hfs1 & _ & Hret & Hempty & Hold).
    assert (log_list self1 = log_list self) as Hsame by (by rewrite Hself1).
    assert (deref w1 (log_list self) = deref w (log_list self)) as Hall1
      by (apply Hold; by destruct Hinv).
    destruct (IH self1 w1 Hinv1)
      as (batches & self' & w2 & Hrun2 & Hinv2 & Hself & Hcwd2 & Hclk2 & Hall2
          & Hsub2 & Hfile2 & Hsame2 & Hbatches).
    { rewrite Hempty. intros x Hx. by apply elem_of_nil in Hx. }
    rewrite Hself1, buffer_lines_rebound in Hall2, Hfile2. simpl in *.
    rewrite Hclk1, Hreads1, Hall1 in Hall2.
    rewrite Hclk1, Hreads1 in Hfile2.
    exists (deref w1 r :: batches), self', w2. unfold bind.
    rewrite Hrun1. simpl. rewrite Hrun2. simpl.
    split_and!; try done; try congruence.
    + rewrite Hself, Hself1. by destruct self.
    + by rewrite Hself1 in Hsub2.
    + rewrite Hfile2. unfold file_content. by rewrite Hfs1.
    + intros Hwtf. rewrite <- Hfs1. apply Hsame2. by rewrite Hself1.
    + intros b [->|Hb]%elem_of_cons.
      * rewrite Hret, Hall2. intros x Hx. apply elem_of_app. left.
        destruct from_start; auto.
      * rewrite Hself1 in Hbatches. by apply Hbatches.
Qed.

(** C1.  An emit of a file-mirroring logger appends one and the same line
    to the log file, to [log_list] and to [log_list_to_send]: the fields
    [[timestamp]], [[prefix]], level tag and message joined by "::" and
    ended by a newline, where the prefix field with its brackets and its
    separator is there only for a non-empty prefix. *)
Theorem echo_plain_line self w msg m_type :
  write_to_file self = true ->
  logger_inv self w ->
  exists w' line,
    _echo self msg m_type w = Ok tt w' /\
    let ts := timestamp_of (short_timestamp self) (w_clock w (w_reads w)) in
    line = spec_line ts (prefix self) m_type msg /\
    (prefix self = "" ->
     line = "[" +:+ ts +:+ "]" +:+ "::" +:+ m_type +:+ "::" +:+ msg +:+ newline) /\
    (prefix self <> "" ->
     line = "[" +:+ ts +:+ "]" +:+ "::" +:+ "[" +:+ prefix self +:+ "]"
            +:+ "::" +:+ m_type +:+ "::" +:+ msg +:+ newline) /\
    file_content w' (log_file_path self) = file_content w (log_file_path self) +:+ line /\
    deref w' (log_list self) = deref w (log_list self) ++ [line] /\
    deref w' (log_list_to_send self) = deref w (log_list_to_send self) ++ [line].
Proof.
  intros Hwtf Hinv.
  destruct (echo_step self w msg m_type Hinv)
    as (w' & Hrun & _ & _ & _ & _ & _ & Hall & Hpend & _ & Hfile & _).
  unfold emitted, line_at in *. rewrite Hwtf in *. simpl in Hfile.
  rewrite sapp_nil_r in Hfile.
  eexists w', _. split; [done|]. simpl. split_and!; try done.
  - intros Hp. rewrite <- (bare_without_prefix _ (prefix self)) by (by rewrite Hp).
    reflexivity.
  - intros Hp. rewrite <- bare_with_prefix by (by destruct (prefix self)).
    reflexivity.
Qed.

(** C2.  On a file-mirroring logger with nothing pending, after [N] leveled
    calls one [flush_logs()] returns exactly the [N] lines of these calls in
    call order, and a second [flush_logs()] right after it returns an empty
    list (which leaves the first returned list as it was). *)
Theorem flush_returns_pending_once self w calls :
  write_to_file self = true ->
  just_flushed self w ->
  exists w1 r1 self1 w2 r2 self2 w3,
    run_calls self calls w = Ok tt w1 /\
    flush_logs self false w1 = Ok (r1, self1) w2 /\
    deref w2 r1 = lines_of self (w_clock w) (w_reads w) calls /\
    length (deref w2 r1) = length calls /\
    flush_logs self1 false w2 = Ok (r2, self2) w3 /\
    deref w3 r2 = [] /\
    deref w3 r1 = deref w2 r1.
Proof.
  intros Hwtf [Hinv Hnone]%just_flushed_inv.
  destruct (run_calls_step calls self w Hinv)
    as (w1 & Hrun1 & Hinv1 & _ & _ & _ & _ & _ & Hpend1 & _).
  destruct (flush_step self false w1 Hinv1)
    as (r1 & self1 & w2 & Hrun2 & Hinv2 & _ & _ & _ & Hr1 & _ & _ & _ & _ & _
        & Hret1 & Hempty1 & _).
  destruct (flush_step self1 false w2 Hinv2)
    as (r2 & self2 & w3 & Hrun3 & _ & _ & _ & _ & _ & _ & _ & _ & _ & _
        & Hret2 & _ & Hold).
  exists w1, r1, self1, w2, r2, self2, w3.
  unfold buffer_lines in Hpend1. rewrite Hwtf, Hnone in Hpend1. simpl in Hpend1.
  rewrite Hret1, Hpend1.
  split_and!; try done.
  - clear. generalize (w_reads w). induction calls as [|[l m] calls IH]; intros r; [done|].
    simpl. by rewrite IH.
  - by rewrite Hret2.
  - rewrite Hold, Hret1, Hpend1; [done|].
    rewrite Hr1. pose proof (inv_pending _ _ Hinv2) as Hlt.
    destruct Hinv1, Hinv2.
    assert (length (w_heap w1) < length (w_heap w2)); [|lia].
    (* the heap grew by the two lists allocated by the first flush *)
    rewrite flush_run in Hrun2. injection Hrun2 as _ _ <-. simpl.
    rewrite length_app. simpl. lia.
Qed.

(** C6.  A logger built with [write_to_file=False] is always constructed,
    and neither its construction nor any program of leveled calls and
    flushes changes the file system; both buffers stay empty and every
    flush, with either flag, returns an empty list. *)
Theorem console_only_logger_is_inert ind ses pfx sh w0 ops :
  exists self w1 batches self2 w2,
    __init__ false ind ses pfx sh w0 = Ok self w1 /\
    w_fs w1 = w_fs w0 /\
    run_ops self ops w1 = Ok (batches, self2) w2 /\
    w_fs w2 = w_fs w0 /\
    deref w2 (log_list self2) = [] /\
    deref w2 (log_list_to_send self2) = [] /\
    Forall (fun batch => batch = []) batches.
Proof.
  assert (__init__ false ind ses pfx sh w0
          = Ok (init_logger false ind ses pfx sh w0) (init_world false ind ses sh w0))
    as Hinit by (apply init_run; [by rewrite andb_false_r | done]).
  destruct (init_post _ _ _ _ _ _ _ _ Hinit) as (Hinv & Hall & Hpend & _).
  set (self := init_logger false ind ses pfx sh w0) in *.
  set (w1 := init_world false ind ses sh w0) in *.
  destruct (run_ops_step ops self w1 Hinv)
    as (batches & self2 & w2 & Hrun & _ & Hself & _ & _ & Hall2 & Hsub2 & _
        & Hfs & Hbatches).
  { rewrite Hpend. apply list_subseteq_nil. }
  exists self, w1, batches, self2, w2.
  assert (write_to_file self = false) as Hwtf by done.
  unfold buffer_lines in Hall2. rewrite Hwtf, Hall, app_nil_r in Hall2.
  assert (log_list self2 = log_list self) as Hsame by (by rewrite Hself).
  rewrite Hall2 in Hsub2, Hbatches.
  split_and!; try done.
  - by apply Hfs.
  - by rewrite Hsame.
  - by apply list_nil_subseteq.
  - apply Forall_forall. intros b Hb. by apply list_nil_subseteq, Hbatches.
Qed.



(** A message line opens with a bracket, the header with a dash. *)
Lemma spec_line_not_header ts pfx m_type msg ts' :
  spec_line ts pfx m_type msg <> header_line ts'.
Proof.
  destruct (PyStr.truthy pfx) eqn:Hp.
  - rewrite <- bare_with_prefix by done. discriminate.
  - rewrite <- (bare_without_prefix _ pfx) by done. discriminate.
Qed.

Lemma lines_of_not_header self clock calls ts' : forall r,
  header_line ts' ∉ lines_of self clock r calls.
Proof.
  induction calls as [|[l msg] calls IH]; intros r; simpl.
  - apply not_elem_of_nil.
  - apply not_elem_of_cons. split; [|apply IH].
    intros Heq. symmetry in Heq. by apply spec_line_not_header in Heq.
Qed.

(** C10.  The separator line that construction writes to the file goes to
    neither buffer.  Whatever the program run afterwards, the file is the
    header followed by the message lines, the full buffer holds the message
    lines only, and no batch returned by a flush, with either flag, contains
    the header: batches are made of message lines. *)
Theorem header_is_never_flushed ind ses pfx sh w0 self w1 ops :
  __init__ true ind ses pfx sh w0 = Ok self w1 ->
  exists header batches self2 w2,
    header = header_line (timestamp_of sh
               (w_clock w0 (w_reads w0 + if ses then 1 else 0))) /\
    file_content w1 (log_file_path self) = header /\
    deref w1 (log_list self) = [] /\
    deref w1 (log_list_to_send self) = [] /\
    run_ops self ops w1 = Ok (batches, self2) w2 /\
    let lines := lines_of self (w_clock w1) (w_reads w1) (calls_of ops) in
    file_content w2 (log_file_path self) = header +:+ text_of_lines lines /\
    deref w2 (log_list self2) = lines /\
    (header ∉ lines) /\
    forall batch, batch ∈ batches -> (batch ⊆ lines) /\ (header ∉ batch).
Proof.
  intros Hinit.
  destruct (init_post _ _ _ _ _ _ _ _ Hinit) as (Hinv & Hall & Hpend & Hself & Hw1).
  assert (write_to_file self = true) as Hwtf by (by rewrite Hself).
  destruct (run_ops_step ops self w1 Hinv)
    as (batches & self2 & w2 & Hrun & _ & Hself2 & _ & _ & Hall2 & _ & Hfile2
        & _ & Hbatches).
  { rewrite Hpend. apply list_subseteq_nil. }
  unfold buffer_lines in *. rewrite Hwtf in *. rewrite Hall in Hall2. simpl in Hall2.
  assert (file_content w1 (log_file_path self)
          = header_line (timestamp_of sh
               (w_clock w0 (w_reads w0 + if ses then 1 else 0)))) as Hheader.
  { rewrite Hw1, Hself. unfold file_content. simpl. by rewrite lookup_insert_eq. }
  eexists _, batches, self2, w2. split; [reflexivity|].
  rewrite <- Hheader at 2.
  assert (log_list self2 = log_list self) as Hsame by (by rewrite Hself2).
  rewrite Hsame, Hall2. split_and!; try done.
  - apply lines_of_not_header.
  - intros batch Hb. specialize (Hbatches batch Hb). rewrite Hall2 in Hbatches.
    split; [done|]. intros Hin. apply Hbatches in Hin.
    by apply lines_of_not_header in Hin.
Qed.

Lemma init_run_file ind ses pfx sh w0 :
  can_construct ind ses w0 = true ->
  __init__ true ind ses pfx sh w0 =
    Ok (init_logger true ind ses pfx sh w0) (init_world true ind ses sh w0).
Proof.
  intros [Hlogs Hpath]%andb_true_iff. apply init_run.
  - rewrite andb_true_r. intros -> c Hc. unfold is_file in Hlogs.
    by rewrite Hc in Hlogs.
  - intros _ Hdir. by rewrite Hdir in Hpath.
Qed.

Lemma logs_not_log_file cwd : cwd +:+ "/logs" <> cwd +:+ "/logs" +:+ "/log.txt".
Proof. intros Heq. by apply (inj (String.app cwd)) in Heq. Qed.



(** A prefix in lower case is lost on the console: Rich takes "[app]" for
    a tag, so the console line has an empty prefix field where the plain
    line has "[app]". *)
Example lowercase_prefix_is_taken_for_a_tag :
  let self := init_logger true false false "app" false demo_world in
  let w1 := init_world true false false false demo_world in
  let w2 := world_after (log self "hi" w1) in
  let printed :=
    "[gray][2024-01-01 10:00:02][/][red bold]::[/][green bold][app][/][red bold]::[/][blue bold]INFO[/][red bold]::[/]hi" in
  __init__ true false false "app" false demo_world = Ok self w1 /\
  last (deref w2 (log_list self))
    = Some ("[2024-01-01 10:00:01]::[app]::INFO::hi" +:+ newline) /\
  last (w_console w2) = Some printed /\
  Rich.text Rich.bare printed = Some "[2024-01-01 10:00:02]::::INFO::hi".
Proof. by vm_compute. Qed.

(** C8, as the code has it.  A non-session, file-mirroring logger resolves
    its file to "<cwd>/log.txt", or to "<cwd>/logs/log.txt" when built with
    [in_dir]; its construction leaves exactly the header line in that file.
    After any calls on it, a second such logger built in the same directory
    with the same [in_dir] flag resolves to the same path, is constructed
    without error, and leaves its own header alone in the file. *)
Theorem non_session_loggers_share_and_truncate ind pfx1 sh1 pfx2 sh2 w0 calls :
  can_construct ind false w0 = true ->
  exists self1 w1 w1' self2 w2,
    __init__ true ind false pfx1 sh1 w0 = Ok self1 w1 /\
    log_file_path self1 = w_cwd w0 +:+ (if ind then "/logs" else "") +:+ "/log.txt" /\
    file_content w1 (log_file_path self1)
      = header_line (timestamp_of sh1 (w_clock w0 (w_reads w0))) /\
    run_calls self1 calls w1 = Ok tt w1' /\
    file_content w1' (log_file_path self1)
      = header_line (timestamp_of sh1 (w_clock w0 (w_reads w0)))
        +:+ text_of_lines (lines_of self1 (w_clock w1) (w_reads w1) calls) /\
    __init__ true ind false pfx2 sh2 w1' = Ok self2 w2 /\
    log_file_path self2 = log_file_path self1 /\
    file_content w2 (log_file_path self2)
      = header_line (timestamp_of sh2 (w_clock w1' (w_reads w1'))).
Proof.
  intros Hcan.
  pose proof (init_run_file ind false pfx1 sh1 w0 Hcan) as Hinit1.
  destruct (init_post _ _ _ _ _ _ _ _ Hinit1) as (Hinv1 & _).
  set (self1 := init_logger true ind false pfx1 sh1 w0) in *.
  set (w1 := init_world true ind false sh1 w0) in *.
  destruct (run_calls_step calls self1 w1 Hinv1)
    as (w1' & Hrun & Hinv1' & Hcwd & _ & _ & _ & _ & _ & Hfile & Hframe & _).
  assert (file_content w1 (log_file_path self1)
          = header_line (timestamp_of sh1 (w_clock w0 (w_reads w0)))) as Hhead1.
  { unfold file_content. simpl. by rewrite lookup_insert_eq, Nat.add_0_r. }
  assert (init_path ind false w1' = log_file_path self1) as Hpath.
  { unfold init_path. by rewrite Hcwd. }
  assert (can_construct ind false w1' = true) as Hcan'.
  { pose proof (inv_file _ _ Hinv1' eq_refl) as Hnodir.
    assert (ind = true -> w_fs w1' !! (w_cwd w0 +:+ "/logs") = Some Dir) as Hlogs'.
    { intros ->. rewrite (Hframe (w_cwd w0 +:+ "/logs")) by apply logs_not_log_file.
      simpl. rewrite lookup_insert_ne by (apply not_eq_sym, logs_not_log_file).
      apply andb_true_iff in Hcan as [Hlogs _].
      unfold after_dir_step, is_file in *. simpl in *.
      destruct (w_fs w0 !! (w_cwd w0 +:+ "/logs")) as [[|c]|] eqn:Elogs; try done.
      by rewrite lookup_insert_eq. }
    unfold can_construct, after_dir_step, is_file, is_dir in *.
    rewrite Hpath, Hcwd.
    destruct ind; simpl.
    - rewrite (Hlogs' eq_refl). simpl. simpl in Hnodir.
      by destruct (w_fs w1' !! init_path true false w0) as [[|?]|].
    - simpl in Hnodir.
      by destruct (w_fs w1' !! init_path false false w0) as [[|?]|]. }
  pose proof (init_run_file ind false pfx2 sh2 w1' Hcan') as Hinit2.
  exists self1, w1, w1', (init_logger true ind false pfx2 sh2 w1'),
    (init_world true ind false sh2 w1').
  assert (buffer_lines self1 (w_clock w1) (w_reads w1) calls
          = lines_of self1 (w_clock w1) (w_reads w1) calls) as Hlines by done.
  rewrite Hlines, Hhead1 in Hfile.
  split_and!; try done.
  unfold file_content. simpl. by rewrite lookup_insert_eq, Nat.add_0_r.
Qed.

(** C8 fails as worded: two non-session loggers built in one working
    directory, the second with [in_dir], get two different files, and the
    second construction leaves the first logger's file as it was. *)
Lemma non_session_paths_can_differ :
  __init__ true false false "" false demo_world = Ok plain_self plain_w1 /\
  log plain_self "hello" plain_w1 = Ok tt plain_w2 /\
  __init__ true true false "" false plain_w2 = Ok dir_self dir_w1 /\
  w_cwd plain_w2 = w_cwd demo_world /\
  log_file_path plain_self = "/home/user/log.txt" /\
  log_file_path dir_self = "/home/user/logs/log.txt" /\
  log_file_path plain_self <> log_file_path dir_self /\
  file_content dir_w1 (log_file_path plain_self)
    = header_line "2024-01-01 10:00:00"
      +:+ "[2024-01-01 10:00:01]::INFO::hello" +:+ newline.
Proof.
  vm_compute. split_and!; try reflexivity. discriminate.
Qed.

(* ================================================================= *)
(** ** The theorems at work on the running example *)

Lemma echo_plain_line_witness :
  write_to_file demo_self = true /\
  logger_inv demo_self demo_w1 /\
  exists w' line,
    _echo demo_self "disk full" "ERROR" demo_w1 = Ok tt w' /\
    let ts := timestamp_of (short_timestamp demo_self)
                (w_clock demo_w1 (w_reads demo_w1)) in
    line = spec_line ts (prefix demo_self) "ERROR" "disk full" /\
    (prefix demo_self = "" ->
     line = "[" +:+ ts +:+ "]" +:+ "::" +:+ "ERROR" +:+ "::" +:+ "disk full" +:+ newline) /\
    (prefix demo_self <> "" ->
     line = "[" +:+ ts +:+ "]" +:+ "::" +:+ "[" +:+ prefix demo_self +:+ "]"
            +:+ "::" +:+ "ERROR" +:+ "::" +:+ "disk full" +:+ newline) /\
    file_content w' (log_file_path demo_self)
      = file_content demo_w1 (log_file_path demo_self) +:+ line /\
    deref w' (log_list demo_self) = deref demo_w1 (log_list demo_self) ++ [line] /\
    deref w' (log_list_to_send demo_self)
      = deref demo_w1 (log_list_to_send demo_self) ++ [line].
Proof.
  assert (logger_inv demo_self demo_w1) as Hinv
    by (split; simpl; [lia | lia | lia | reflexivity]).
  split; [reflexivity|]. split; [exact Hinv|].
  exact (echo_plain_line demo_self demo_w1 "disk full" "ERROR" eq_refl Hinv).
Defined.

Lemma flush_returns_pending_once_witness :
  write_to_file demo_self = true /\
  just_flushed demo_self demo_w1 /\
  exists w1 r1 self1 w2 r2 self2 w3,
    run_calls demo_self [(ERROR, "disk full"); (INFO, "done")] demo_w1 = Ok tt w1 /\
    flush_logs demo_self false w1 = Ok (r1, self1) w2 /\
    deref w2 r1 = lines_of demo_self (w_clock demo_w1) (w_reads demo_w1)
                    [(ERROR, "disk full"); (INFO, "done")] /\
    length (deref w2 r1) = length [(ERROR, "disk full"); (INFO, "done")] /\
    flush_logs self1 false w2 = Ok (r2, self2) w3 /\
    deref w3 r2 = [] /\
    deref w3 r1 = deref w2 r1.
Proof.
  assert (just_flushed demo_self demo_w1) as Hfresh
    by (apply (fresh_init true false false "APP" false demo_world); reflexivity).
  split; [reflexivity|]. split; [exact Hfresh|].
  exact (flush_returns_pending_once demo_self demo_w1
           [(ERROR, "disk full"); (INFO, "done")] eq_refl Hfresh).
Defined.

Lemma flush_from_start_full_history_witness :
  reachable demo_self demo_w2 [demo_line] 0 /\
  exists r self' w',
    flush_logs demo_self true demo_w2 = Ok (r, self') w' /\
    deref w' r = [demo_line] /\
    deref w' (log_list_to_send self') = [] /\
    log_list self' = log_list demo_self /\
    deref w' (log_list self') = [demo_line] /\
    r <> log_list self' /\ r <> log_list_to_send self'.
Proof.
  assert (reachable demo_self demo_w2 [demo_line] 0) as Hreach.
  { apply (reach_echo demo_self demo_w1 [] 0 "disk full" "ERROR" demo_w2).
    - apply (reach_init true false false "APP" false demo_world). reflexivity.
    - reflexivity. }
  split; [exact Hreach|].
  exact (flush_from_start_full_history demo_self demo_w2 [demo_line] 0 Hreach).
Defined.


Lemma pending_is_suffix_witness :
  reachable demo_self demo_w2 [demo_line] 0 /\
  deref demo_w2 (log_list demo_self) = [demo_line] /\
  deref demo_w2 (log_list_to_send demo_self)
    = drop 0 (deref demo_w2 (log_list demo_self)) /\
  deref demo_w2 (log_list_to_send demo_self)
    `suffix_of` deref demo_w2 (log_list demo_self).
Proof.
  assert (reachable demo_self demo_w2 [demo_line] 0) as Hreach.
  { apply (reach_echo demo_self demo_w1 [] 0 "disk full" "ERROR" demo_w2).
    - apply (reach_init true false false "APP" false demo_world). reflexivity.
    - reflexivity. }
  split; [exact Hreach|].
  exact (pending_is_suffix demo_self demo_w2 [demo_line] 0 Hreach).
Defined.

Lemma timestamp_string_format_witness :
  wf (w_clock demo_w1 (w_reads demo_w1)) = true /\
  wf (w_clock demo_w1 (S (w_reads demo_w1))) = true /\
  exists ts1 w1 ts2 w2,
    _make_timestamp_string demo_self demo_w1 = Ok ts1 w1 /\
    _make_timestamp_string demo_self w1 = Ok ts2 w2 /\
    ts1 = timestamp_of (short_timestamp demo_self)
            (w_clock demo_w1 (w_reads demo_w1)) /\
    ts2 = timestamp_of (short_timestamp demo_self)
            (w_clock demo_w1 (S (w_reads demo_w1))) /\
    w_reads w1 = S (w_reads demo_w1) /\ w_reads w2 = S (S (w_reads demo_w1)) /\
    matches (if short_timestamp demo_self then pat_short else pat_full) ts1 = true /\
    matches (if short_timestamp demo_self then pat_short else pat_full) ts2 = true.
Proof.
  split; [reflexivity|]. split; [reflexivity|].
  exact (timestamp_string_format demo_self demo_w1 eq_refl eq_refl).
Defined.

Lemma non_session_loggers_share_and_truncate_witness :
  can_construct true false demo_world = true /\
  exists self1 w1 w1' self2 w2,
    __init__ true true false "A" false demo_world = Ok self1 w1 /\
    log_file_path self1 = w_cwd demo_world +:+ "/logs" +:+ "/log.txt" /\
    file_content w1 (log_file_path self1)
      = header_line (timestamp_of false (w_clock demo_world (w_reads demo_world))) /\
    run_calls self1 [(INFO, "hello")] w1 = Ok tt w1' /\
    file_content w1' (log_file_path self1)
      = header_line (timestamp_of false (w_clock demo_world (w_reads demo_world)))
        +:+ text_of_lines (lines_of self1 (w_clock w1) (w_reads w1) [(INFO, "hello")]) /\
    __init__ true true false "B" true w1' = Ok self2 w2 /\
    log_file_path self2 = log_file_path self1 /\
    file_content w2 (log_file_path self2)
      = header_line (timestamp_of true (w_clock w1' (w_reads w1'))).
Proof.
  split; [reflexivity|].
  exact (non_session_loggers_share_and_truncate true "A" false "B" true demo_world
           [(INFO, "hello")] eq_refl).
Defined.


Lemma header_is_never_flushed_witness :
  __init__ true false false "APP" false demo_world = Ok demo_self demo_w1 /\
  exists header batches self2 w2,
    header = header_line (timestamp_of false
               (w_clock demo_world (w_reads demo_world + 0))) /\
    file_content demo_w1 (log_file_path demo_self) = header /\
    deref demo_w1 (log_list demo_self) = [] /\
    deref demo_w1 (log_list_to_send demo_self) = [] /\
    run_ops demo_self
      [Call ERROR "disk full"; Flush false; Call INFO "done"; Flush true] demo_w1
      = Ok (batches, self2) w2 /\
    let lines := lines_of demo_self (w_clock demo_w1) (w_reads demo_w1)
                   (calls_of [Call ERROR "disk full"; Flush false;
                              Call INFO "done"; Flush true]) in
    file_content w2 (log_file_path demo_self) = header +:+ text_of_lines lines /\
    deref w2 (log_list self2) = lines /\
    (header ∉ lines) /\
    forall batch, batch ∈ batches -> (batch ⊆ lines) /\ (header ∉ batch).
Proof.
  split; [reflexivity|].
  exact (header_is_never_flushed false false "APP" false demo_world demo_self demo_w1
           [Call ERROR "disk full"; Flush false; Call INFO "done"; Flush true]
           eq_refl).
Defined.

(* ================================================================= *)
(** ** Construction: failures and footprint *)

Lemma init_raise_path_world ind ses pfx sh w0 :
  (ind = true -> is_file w0 (w_cwd w0 +:+ "/logs") = false) ->
  after_dir_step true ind w0 !! init_path ind ses w0 = Some Dir ->
  exists w,
    __init__ true ind ses pfx sh w0 = Raise IsADirectoryError w /\
    w_fs w = after_dir_step true ind w0 /\
    w_console w = w_console w0.
Proof.
  intros Hdir Hpath.
  unfold __init__, init_path, after_dir_step, file_name, is_file in *.
  unfold bind, getcwd, isdir, mkdir, datetime_now, list_new,
    _open_log_file, py_open, ret.
  destruct ind, ses; simpl in *.
  all: try specialize (Hdir eq_refl).
  all: try (destruct (w_fs w0 !! (w_cwd w0 +:+ "/logs")) as [[|c]|] eqn:Elogs;
            [ | done | ]; simpl; rewrite ?Elogs; simpl).
  all: rewrite Hpath; eexists; split; [reflexivity|]; done.
Qed.

(** X1.  Construction with [write_to_file=True] is refused in two cases,
    both before anything is written.  When "logs" is asked for and is a
    regular file, [os.mkdir] raises [FileExistsError] and nothing at all
    has changed.  When the path of the log file is a directory (inside a
    "logs" that is one, if "logs" is asked for), [open] raises
    [IsADirectoryError]; the file system and the console are as before. *)
Theorem construction_refused ind ses pfx sh w0 e :
  construction_conflict ind ses w0 = Some e ->
  exists w,
    __init__ true ind ses pfx sh w0 = Raise e w /\
    w_fs w = w_fs w0 /\
    w_console w = w_console w0 /\
    (e = FileExistsError -> w = w0).
Proof.
  unfold construction_conflict.
  destruct (ind && is_file w0 (w_cwd w0 +:+ "/logs")) eqn:Elogs.
  - intros [= <-]. apply andb_true_iff in Elogs as [-> Hfile].
    unfold is_file in Hfile.
    destruct (w_fs w0 !! (w_cwd w0 +:+ "/logs")) as [[|c]|] eqn:Hlook; try done.
    exists w0. by rewrite (init_raise_logs true true ses pfx sh w0 c).
  - destruct (is_dir w0 (init_path ind ses w0)
              && (negb ind || is_dir w0 (w_cwd w0 +:+ "/logs"))) eqn:Edir; [|done].
    intros [= <-]. apply andb_true_iff in Edir as [Hpath Hdir].
    assert (ind = true -> is_file w0 (w_cwd w0 +:+ "/logs") = false) as Hnofile
      by (by intros ->).
    assert (after_dir_step true ind w0 = w_fs w0) as Hstep.
    { unfold after_dir_step. destruct ind; [|done]. simpl in *.
      unfold is_dir in Hdir. by destruct (w_fs w0 !! (w_cwd w0 +:+ "/logs")). }
    unfold is_dir in Hpath.
    destruct (w_fs w0 !! init_path ind ses w0) as [[|c]|] eqn:Hlook; try done.
    rewrite <- Hstep in Hlook.
    destruct (init_raise_path_world ind ses pfx sh w0 Hnofile Hlook)
      as (w & Hrun & Hfs & Hcons).
    exists w. split_and!; [done|by rewrite Hfs|done|done].
Qed.

Lemma construction_refused_witness :
  construction_conflict true false logs_file_w = Some FileExistsError /\
  exists w,
    __init__ true true false "APP" false logs_file_w = Raise FileExistsError w /\
    w_fs w = w_fs logs_file_w /\
    w_console w = w_console logs_file_w /\
    (FileExistsError = FileExistsError -> w = logs_file_w).
Proof.
  split; [reflexivity|].
  exact (construction_refused true false "APP" false logs_file_w FileExistsError
           eq_refl).
Defined.

Lemma logs_not_init_path cwd ses w0 :
  cwd +:+ "/logs" <> cwd +:+ "/logs" +:+ file_name ses w0.
Proof.
  intros Heq. apply (inj (String.app cwd)) in Heq.
  rewrite <- (sapp_nil_r "/logs") in Heq at 1.
  apply (inj (String.app "/logs")) in Heq.
  unfold file_name in Heq. by destruct ses.
Qed.

(** X2.  What a successful construction leaves on disk: with
    [write_to_file], the log file holding the header line and nothing
    else; with [in_dir] as well, a directory "logs" (made if it was
    missing); every other path is as before.  Without [write_to_file]
    nothing changes at all.  The console is never written to. *)
Theorem construction_footprint wtf ind ses pfx sh w0 self w :
  __init__ wtf ind ses pfx sh w0 = Ok self w ->
  (forall p, p <> log_file_path self -> p <> w_cwd w0 +:+ "/logs" ->
             w_fs w !! p = w_fs w0 !! p) /\
  (wtf = true -> ind = true -> w_fs w !! (w_cwd w0 +:+ "/logs") = Some Dir) /\
  (ind = false -> forall p, p <> log_file_path self -> w_fs w !! p = w_fs w0 !! p) /\
  (wtf = true ->
   exists ts, w_fs w !! log_file_path self = Some (File (header_line ts)) /\
              ts = timestamp_of sh (w_clock w0 (w_reads w0 + if ses then 1 else 0))) /\
  (wtf = false -> w_fs w = w_fs w0) /\
  w_console w = w_console w0 /\ w_cwd w = w_cwd w0.
Proof.
  intros Hinit.
  assert (ind = true -> wtf = true ->
          forall c, w_fs w0 !! (w_cwd w0 +:+ "/logs") <> Some (File c)) as Hlogs.
  { intros -> -> c Hc.
    by rewrite (init_raise_logs true true ses pfx sh w0 c) in Hinit. }
  apply init_inversion in Hinit as [-> ->]. simpl.
  split_and!; try done.
  - intros p Hp Hq. destruct wtf; [|done].
    rewrite lookup_insert_ne by done.
    unfold after_dir_step. destruct ind; simpl; [|done].
    destruct (w_fs w0 !! (w_cwd w0 +:+ "/logs")); [done|].
    by rewrite lookup_insert_ne.
  - intros -> ->.
    rewrite lookup_insert_ne by (apply not_eq_sym, logs_not_init_path).
    unfold after_dir_step. simpl.
    destruct (w_fs w0 !! (w_cwd w0 +:+ "/logs")) as [[|c]|] eqn:Hlook.
    + done.
    + by destruct (Hlogs eq_refl eq_refl c).
    + by rewrite lookup_insert_eq.
  - intros -> p Hp. destruct wtf; [|done].
    by rewrite lookup_insert_ne by done.
  - intros ->. eexists. by rewrite lookup_insert_eq.
  - by intros ->.
Qed.

Lemma construction_footprint_witness :
  __init__ true true false "APP" false demo_world
  = Ok (init_logger true true false "APP" false demo_world)
       (init_world true true false false demo_world) /\
  w_fs (init_world true true false false demo_world) !! "/home/user/logs" = Some Dir /\
  w_fs (init_world true true false false demo_world) !! "/home/user/other.txt" = None.
Proof.
  assert (__init__ true true false "APP" false demo_world
          = Ok (init_logger true true false "APP" false demo_world)
               (init_world true true false false demo_world)) as Hinit
    by reflexivity.
  destruct (construction_footprint true true false "APP" false demo_world _ _ Hinit)
    as (Hframe & Hlogs & _).
  split; [exact Hinit|]. split; [exact (Hlogs eq_refl eq_refl)|].
  rewrite (Hframe "/home/user/other.txt"); [reflexivity | discriminate | discriminate].
Defined.

(* ================================================================= *)
(** ** Session file names *)

Section session_names.

Lemma replace_sapp a b s t :
  PyStr.replace a b (s +:+ t) = PyStr.replace a b s +:+ PyStr.replace a b t.
Proof.
  induction s as [|c s IH]; [done|].
  rewrite sapp_cons. simpl. by rewrite IH.
Qed.

Lemma replace_digits a b s :
  PyStr.is_digit a = false -> PyStr.all_digits s = true -> PyStr.replace a b s = s.
Proof.
  intros Ha. induction s as [|c s IH]; [done|].
  simpl. intros [Hc Hs]%andb_true_iff. rewrite (IH Hs).
  destruct (Ascii.eqb_spec c a) as [->|_]; [congruence|done].
Qed.

Lemma session_stamp_of_str d :
  PyStr.replace ":" "-" (PyStr.replace " " "_" (str d)) = session_stamp d.
Proof.
  unfold str, session_stamp.
  destruct (microsecond d =? 0)%N;
    rewrite !replace_sapp;
    rewrite !(replace_digits " " "_" (fmt0 _ _)) by (done || apply fmt0_all_digits);
    rewrite !(replace_digits ":" "-" (fmt0 _ _)) by (done || apply fmt0_all_digits);
    reflexivity.
Qed.

Lemma sapp_inj_length a a' r r' :
  String.length a = String.length a' ->
  a +:+ r = a' +:+ r' -> a = a' /\ r = r'.
Proof.
  revert a'. induction a as [|c a IH]; intros [|c' a'] Hlen Heq; try done.
  rewrite !sapp_cons in Heq. injection Heq as -> Heq.
  injection Hlen as Hlen. destruct (IH a' Hlen Heq) as [-> ->]. done.
Qed.

Lemma digit_char_inj x y :
  (x < 10)%N -> (y < 10)%N -> digit_char x = digit_char y -> x = y.
Proof.
  intros Hx Hy Heq. apply (f_equal N_of_ascii) in Heq.
  unfold digit_char in Heq. rewrite !N_ascii_embedding in Heq by lia. lia.
Qed.

Lemma dec_digits_inj w : forall n m,
  (n < 10 ^ N.of_nat w)%N -> (m < 10 ^ N.of_nat w)%N ->
  dec_digits w n = dec_digits w m -> n = m.
Proof.
  induction w as [|w IH]; intros n m Hn Hm Heq.
  - change (10 ^ N.of_nat 0)%N with 1%N in *. lia.
  - simpl in Heq.
    apply sapp_inj_length in Heq as [Hhigh Hlow];
      [|by rewrite !dec_digits_length].
    replace (N.of_nat (S w)) with (N.succ (N.of_nat w)) in * by lia.
    rewrite N.pow_succ_r' in *.
    apply IH in Hhigh; try (apply N.Div0.div_lt_upper_bound; lia).
    injection Hlow as Hlow.
    apply digit_char_inj in Hlow; try (apply N.mod_upper_bound; lia).
    rewrite (N.div_mod' n 10), (N.div_mod' m 10). by rewrite Hhigh, Hlow.
Qed.

Lemma fmt0_dec_digits w n :
  (n < 10 ^ N.of_nat (S w))%N -> fmt0 (S w) n = dec_digits (S w) n.
Proof.
  intros Hn. unfold fmt0, ndigits.
  pose proof (ndigits_aux_bound (N.to_nat (N.log2 n)) w n Hn).
  by replace (Nat.max (S w) _) with (S w) by lia.
Qed.

Lemma fmt0_inj w n m :
  (n < 10 ^ N.of_nat (S w))%N -> (m < 10 ^ N.of_nat (S w))%N ->
  fmt0 (S w) n = fmt0 (S w) m -> n = m.
Proof.
  intros Hn Hm. rewrite !fmt0_dec_digits by done. by apply dec_digits_inj.
Qed.

Lemma fmt0_6_length n : (n < 1000000)%N -> String.length (fmt0 6 n) = 6.
Proof. intros. by apply fmt0_length. Qed.

Lemma wf_microsecond dt : wf dt = true -> (microsecond dt < 1000000)%N.
Proof. unfold wf. intros [_ Hus]%andb_true_iff. by apply N.ltb_lt. Qed.

Lemma digits_not_txt s r :
  PyStr.all_digits s = true -> String.length s = 6 -> "txt" <> s +:+ r.
Proof.
  destruct s as [|c s]; [done|]. simpl. intros [Hc _]%andb_true_iff _.
  rewrite sapp_cons. intros Heq. injection Heq as <- _. done.
Qed.

(** Two well-formed clock values with the same stamp are the same. *)
Lemma session_stamp_inj d1 d2 :
  wf d1 = true -> wf d2 = true ->
  session_stamp d1 +:+ ".txt" = session_stamp d2 +:+ ".txt" -> d1 = d2.
Proof.
  intros Hwf1 Hwf2.
  pose proof (wf_bounds d1 Hwf1) as (Hy1 & Hmo1 & Hd1 & Hh1 & Hmi1 & Hs1).
  pose proof (wf_bounds d2 Hwf2) as (Hy2 & Hmo2 & Hd2 & Hh2 & Hmi2 & Hs2).
  pose proof (wf_microsecond d1 Hwf1) as Hus1.
  pose proof (wf_microsecond d2 Hwf2) as Hus2.
  unfold session_stamp. rewrite !sapp_assoc. intros Heq.
  apply sapp_inj_length in Heq as [Hy Heq]; [|by rewrite !fmt0_4_length].
  apply (inj (String.app "-")) in Heq.
  apply sapp_inj_length in Heq as [Hmo Heq]; [|by rewrite !fmt0_2_length].
  apply (inj (String.app "-")) in Heq.
  apply sapp_inj_length in Heq as [Hd Heq]; [|by rewrite !fmt0_2_length].
  apply (inj (String.app "_")) in Heq.
  apply sapp_inj_length in Heq as [Hh Heq]; [|by rewrite !fmt0_2_length].
  apply (inj (String.app "-")) in Heq.
  apply sapp_inj_length in Heq as [Hmi Heq]; [|by rewrite !fmt0_2_length].
  apply (inj (String.app "-")) in Heq.
  apply sapp_inj_length in Heq as [Hs Heq]; [|by rewrite !fmt0_2_length].
  apply fmt0_inj in Hy; [|done..]. apply fmt0_inj in Hmo; [|done..].
  apply fmt0_inj in Hd; [|done..]. apply fmt0_inj in Hh; [|done..].
  apply fmt0_inj in Hmi; [|done..]. apply fmt0_inj in Hs; [|done..].
  assert (microsecond d1 = microsecond d2) as Hus.
  { destruct (N.eqb_spec (microsecond d1) 0) as [E1|E1],
             (N.eqb_spec (microsecond d2) 0) as [E2|E2].
    - congruence.
    - rewrite sapp_assoc in Heq. apply (inj (String.app ".")) in Heq.
      by apply digits_not_txt in Heq;
        [|apply fmt0_all_digits|apply fmt0_6_length].
    - rewrite sapp_assoc in Heq. apply (inj (String.app ".")) in Heq.
      symmetry in Heq.
      by apply digits_not_txt in Heq;
        [|apply fmt0_all_digits|apply fmt0_6_length].
    - rewrite !sapp_assoc in Heq. apply (inj (String.app ".")) in Heq.
      apply sapp_inj_length in Heq as [Heq _]; [|by rewrite !fmt0_6_length].
      by apply fmt0_inj in Heq. }
  destruct d1, d2. simpl in *. by subst.
Qed.

End session_names.

(** X3.  A session logger's file is
    "<cwd>[/logs]/log_YYYY-MM-DD_HH-MM-SS[.ffffff].txt", stamped with the
    clock reading taken at construction.  Two session loggers built in the
    same directory with the same [in_dir] flag therefore get the same file
    exactly when their two clock readings are the same, to the
    microsecond. *)
Theorem session_files_coincide_iff wtf1 wtf2 ind pfx1 sh1 pfx2 sh2 wa wb
    self1 self2 wa' wb' :
  __init__ wtf1 ind true pfx1 sh1 wa = Ok self1 wa' ->
  __init__ wtf2 ind true pfx2 sh2 wb = Ok self2 wb' ->
  w_cwd wa = w_cwd wb ->
  wf (w_clock wa (w_reads wa)) = true ->
  wf (w_clock wb (w_reads wb)) = true ->
  log_file_path self1
    = w_cwd wa +:+ (if ind then "/logs" else "") +:+ "/log_"
      +:+ session_stamp (w_clock wa (w_reads wa)) +:+ ".txt" /\
  (log_file_path self1 = log_file_path self2
   <-> w_clock wa (w_reads wa) = w_clock wb (w_reads wb)).
Proof.
  intros [-> _]%init_inversion [-> _]%init_inversion Hcwd Hwfa Hwfb.
  simpl. unfold init_path, file_name. rewrite !session_stamp_of_str, Hcwd.
  split; [done|]. split.
  - intros Heq.
    apply (inj (String.app (w_cwd wb))) in Heq.
    apply (inj (String.app (if ind then "/logs" else ""))) in Heq.
    apply (inj (String.app "/log_")) in Heq.
    by apply session_stamp_inj.
  - by intros ->.
Qed.

Lemma session_files_coincide_iff_witness :
  __init__ true false true "" false demo_world = Ok session_a session_wa /\
  __init__ true false true "" false session_wa = Ok session_b session_wb /\
  w_cwd demo_world = w_cwd session_wa /\
  wf (w_clock demo_world (w_reads demo_world)) = true /\
  wf (w_clock session_wa (w_reads session_wa)) = true /\
  log_file_path session_a
    = w_cwd demo_world +:+ "" +:+ "/log_"
      +:+ session_stamp (w_clock demo_world (w_reads demo_world)) +:+ ".txt" /\
  (log_file_path session_a = log_file_path session_b
   <-> w_clock demo_world (w_reads demo_world) = w_clock session_wa (w_reads session_wa)).
Proof.
  do 5 (split; [reflexivity|]).
  exact (session_files_coincide_iff true true false "" false "" false
           demo_world session_wa session_a session_b session_wa session_wb
           eq_refl eq_refl eq_refl eq_refl eq_refl).
Defined.

(* ================================================================= *)
(** ** Programs: what flushes hand out, and what they leave alone *)

(** X4.  As long as every flush is a plain [flush_logs()], flushing loses
    nothing and repeats nothing: the batches handed out so far, one after
    the other, followed by what is still pending, are exactly what was
    pending at the start followed by the lines of all calls, in order. *)
Theorem incremental_flushes_partition ops : forall self w,
  logger_inv self w ->
  incremental ops = true ->
  exists batches self' w',
    run_ops self ops w = Ok (batches, self') w' /\
    concat batches ++ deref w' (log_list_to_send self')
    = deref w (log_list_to_send self)
      ++ buffer_lines self (w_clock w) (w_reads w) (calls_of ops).
Proof.
  induction ops as [|[l msg|from_start] ops IH]; intros self w Hinv Hinc.
  - exists [], self, w. simpl. by rewrite buffer_lines_nil, app_nil_r.
  - destruct (echo_step self w msg (level_tag l) Hinv)
      as (w1 & Hrun1 & Hinv1 & _ & Hclk1 & Hreads1 & _ & _ & Hpend1 & _).
    destruct (IH self w1 Hinv1 Hinc) as (batches & self' & w' & Hrun & Hcat).
    exists batches, self', w'. simpl. unfold bind.
    rewrite call_is_echo, Hrun1, Hrun. split; [done|].
    rewrite Hcat, Hpend1, Hclk1, Hreads1, buffer_lines_cons, <- app_assoc.
    done.
  - simpl in Hinc. destruct from_start; [done|].
    destruct (flush_step self false w Hinv)
      as (r & self1 & w1 & Hrun1 & Hinv1 & Hself1 & _ & _ & _ & _ & Hclk1
          & Hreads1 & _ & _ & Hret & Hempty & _).
    destruct (IH self1 w1 Hinv1 Hinc) as (batches & self' & w' & Hrun & Hcat).
    exists (deref w1 r :: batches), self', w'. simpl. unfold bind.
    rewrite Hrun1. simpl. rewrite Hrun. simpl. split; [done|].
    rewrite <- app_assoc, Hcat, Hempty, Hret, Hclk1, Hreads1.
    rewrite Hself1, buffer_lines_rebound. done.
Qed.

Lemma incremental_flushes_partition_witness :
  logger_inv demo_self demo_w1 /\
  incremental [Call ERROR "disk full"; Flush false; Call INFO "done"; Flush false;
               Call WARN "late"] = true /\
  exists batches self' w',
    run_ops demo_self
      [Call ERROR "disk full"; Flush false; Call INFO "done"; Flush false;
       Call WARN "late"] demo_w1 = Ok (batches, self') w' /\
    concat batches ++ deref w' (log_list_to_send self')
    = deref demo_w1 (log_list_to_send demo_self)
      ++ buffer_lines demo_self (w_clock demo_w1) (w_reads demo_w1)
           (calls_of [Call ERROR "disk full"; Flush false; Call INFO "done";
                      Flush false; Call WARN "late"]).
Proof.
  assert (logger_inv demo_self demo_w1) as Hinv
    by (split; simpl; [lia | lia | lia | reflexivity]).
  split; [exact Hinv|]. split; [reflexivity|].
  exact (incremental_flushes_partition
           [Call ERROR "disk full"; Flush false; Call INFO "done"; Flush false;
            Call WARN "late"] demo_self demo_w1 Hinv eq_refl).
Defined.

(** No program touches a list object other than the logger's two buffers. *)
Lemma run_ops_frame ops : forall self w l,
  logger_inv self w ->
  l < length (w_heap w) -> l <> log_list self -> l <> log_list_to_send self ->
  exists batches self' w',
    run_ops self ops w = Ok (batches, self') w' /\
    logger_inv self' w' /\
    deref w' l = deref w l /\
    l <> log_list self' /\ l <> log_list_to_send self'.
Proof.
  induction ops as [|[lv msg|from_start] ops IH]; intros self w l Hinv Hl Hall Hpend.
  - by exists [], self, w.
  - destruct (echo_step self w msg (level_tag lv) Hinv)
      as (w1 & Hrun1 & Hinv1 & _ & _ & _ & Hlen1 & _ & _ & Hframe1 & _).
    destruct (IH self w1 l Hinv1) as (batches & self' & w' & Hrun & Hinv' & Hsame & Hne);
      [by rewrite Hlen1|done|done|].
    exists batches, self', w'. simpl. unfold bind.
    rewrite call_is_echo, Hrun1, Hrun. split_and!; try done; try tauto.
    by rewrite Hsame, Hframe1.
  - destruct (flush_step self from_start w Hinv)
      as (r & self1 & w1 & Hrun1 & Hinv1 & Hself1 & _ & _ & Hr & _ & _ & _ & _
          & _ & _ & _ & Hold).
    pose proof Hrun1 as Hclosed. rewrite flush_run in Hclosed.
    injection Hclosed as _ Hs1 Hw1.
    assert (length (w_heap w1) = S (S (length (w_heap w)))) as Hlen1.
    { rewrite <- Hw1. simpl. rewrite length_app. simpl. lia. }
    assert (log_list_to_send self1 = S (length (w_heap w))) as Hp1
      by (by rewrite <- Hs1).
    assert (log_list self1 = log_list self) as Ha1 by (by rewrite <- Hs1).
    destruct (IH self1 w1 l Hinv1) as (batches & self' & w' & Hrun & Hinv' & Hsame & Hne);
      [lia|congruence|lia|].
    exists (deref w1 r :: batches), self', w'. simpl. unfold bind.
    rewrite Hrun1. simpl. rewrite Hrun. simpl. split_and!; try done; try tauto.
    by rewrite Hsame, Hold.
Qed.

(** X5.  The list a flush returns belongs to the caller: whatever is done
    with the logger afterwards -- more calls, more flushes of either kind --
    the returned list keeps the content it was returned with. *)
Theorem returned_batch_is_stable self from_start w r self1 w1 ops :
  logger_inv self w ->
  flush_logs self from_start w = Ok (r, self1) w1 ->
  exists batches self2 w2,
    run_ops self1 ops w1 = Ok (batches, self2) w2 /\
    deref w2 r = deref w1 r /\
    deref w1 r = deref w (if from_start then log_list self else log_list_to_send self).
Proof.
  intros Hinv Hrun1.
  destruct (flush_step self from_start w Hinv)
    as (r' & self1' & w1' & Hrun1' & Hinv1 & _ & Hr1 & Hr2 & Hr & _ & _ & _ & _
        & _ & Hret & _).
  rewrite Hrun1 in Hrun1'. injection Hrun1' as <- <- <-.
  pose proof Hrun1 as Hclosed. rewrite flush_run in Hclosed.
  injection Hclosed as _ _ Hw1.
  destruct (run_ops_frame ops self1 w1 r Hinv1)
    as (batches & self2 & w2 & Hrun & _ & Hsame & _); [|done|done|].
  { rewrite <- Hw1, Hr. simpl. rewrite length_app. simpl. lia. }
  by exists batches, self2, w2.
Qed.

Lemma returned_batch_is_stable_witness :
  logger_inv demo_self demo_w2 /\
  flush_logs demo_self true demo_w2 = Ok (flushed_r, flushed_self) flushed_w /\
  exists batches self2 w2,
    run_ops flushed_self [Call INFO "more"; Flush true; Call WARN "again"] flushed_w
      = Ok (batches, self2) w2 /\
    deref w2 flushed_r = deref flushed_w flushed_r /\
    deref flushed_w flushed_r = deref demo_w2 (log_list demo_self).
Proof.
  assert (logger_inv demo_self demo_w2) as Hinv
    by (split; [vm_compute; lia | vm_compute; lia | vm_compute; lia
               | intros _; reflexivity]).
  split; [exact Hinv|]. split; [reflexivity|].
  exact (returned_batch_is_stable demo_self true demo_w2 flushed_r flushed_self
           flushed_w [Call INFO "more"; Flush true; Call WARN "again"] Hinv eq_refl).
Defined.

(** X6.  Two loggers never share a buffer.  Once a second logger has been
    constructed, no program run on it changes the first logger's
    [log_list] or [log_list_to_send] -- also when both write to the same
    file. *)
Theorem loggers_keep_separate_buffers a w wtf ind ses pfx sh b w1 ops :
  logger_inv a w ->
  __init__ wtf ind ses pfx sh w = Ok b w1 ->
  exists batches b' w2,
    run_ops b ops w1 = Ok (batches, b') w2 /\
    deref w2 (log_list a) = deref w (log_list a) /\
    deref w2 (log_list_to_send a) = deref w (log_list_to_send a) /\
    log_list b' <> log_list a /\ log_list b' <> log_list_to_send a /\
    log_list_to_send b' <> log_list a /\
    log_list_to_send b' <> log_list_to_send a.
Proof.
  intros [Hall Hpend _ _] Hinit.
  destruct (init_post _ _ _ _ _ _ _ _ Hinit) as (Hinv & _ & _ & Hb & Hw1).
  assert (length (w_heap w1) = S (S (length (w_heap w)))) as Hlen.
  { rewrite Hw1. simpl. rewrite length_app. simpl. lia. }
  assert (forall l, l < length (w_heap w) -> deref w1 l = deref w l) as Hold.
  { intros l Hl. rewrite Hw1. unfold deref. simpl. by apply lookup_total_app_l. }
  assert (log_list b = length (w_heap w)) as Hb1 by (by rewrite Hb).
  assert (log_list_to_send b = S (length (w_heap w))) as Hb2 by (by rewrite Hb).
  destruct (run_ops_frame ops b w1 (log_list a) Hinv)
    as (batches & b' & w2 & Hrun & _ & Hsame1 & Hne1 & Hne2); [lia..|].
  destruct (run_ops_frame ops b w1 (log_list_to_send a) Hinv)
    as (batches' & b'' & w2' & Hrun' & _ & Hsame2 & Hne3 & Hne4); [lia..|].
  rewrite Hrun in Hrun'. injection Hrun' as <- <- <-.
  exists batches, b', w2. split_and!; try done; try congruence.
  - by rewrite Hsame1, Hold.
  - by rewrite Hsame2, Hold.
Qed.

Lemma loggers_keep_separate_buffers_witness :
  logger_inv demo_self demo_w2 /\
  __init__ true false false "B" false demo_w2
  = Ok (init_logger true false false "B" false demo_w2)
       (init_world true false false false demo_w2) /\
  exists batches b' w2,
    run_ops (init_logger true false false "B" false demo_w2)
      [Call INFO "from b"; Flush true]
      (init_world true false false false demo_w2) = Ok (batches, b') w2 /\
    deref w2 (log_list demo_self) = deref demo_w2 (log_list demo_self) /\
    deref w2 (log_list_to_send demo_self) = deref demo_w2 (log_list_to_send demo_self) /\
    log_list b' <> log_list demo_self /\ log_list b' <> log_list_to_send demo_self /\
    log_list_to_send b' <> log_list demo_self /\
    log_list_to_send b' <> log_list_to_send demo_self.
Proof.
  assert (logger_inv demo_self demo_w2) as Hinv
    by (split; [vm_compute; lia | vm_compute; lia | vm_compute; lia
               | intros _; reflexivity]).
  split; [exact Hinv|]. split; [reflexivity|].
  exact (loggers_keep_separate_buffers demo_self demo_w2 true false false "B" false
           _ _ [Call INFO "from b"; Flush true] Hinv eq_refl).
Defined.

(* ================================================================= *)
(** ** The console, and the file sink at its edges *)





(** X8.  The file comes first.  When the log file cannot be opened (its
    path is a directory), an emit raises [IsADirectoryError] having only
    read the clock: nothing is added to either buffer and nothing is
    printed. *)
Theorem emit_fails_before_buffering self w msg m_type :
  write_to_file self = true ->
  is_dir w (log_file_path self) = true ->
  exists w',
    _echo self msg m_type w = Raise IsADirectoryError w' /\
    w_heap w' = w_heap w /\ w_console w' = w_console w /\ w_fs w' = w_fs w /\
    w_reads w' = S (w_reads w).
Proof.
  intros Hwtf Hdir. unfold is_dir in Hdir.
  destruct (w_fs w !! log_file_path self) as [[|c]|] eqn:Hlook; try done.
  unfold _echo, bind. rewrite Hwtf.
  unfold _open_log_file, py_open, ret.
  destruct (PyStr.truthy (prefix self));
    cbn beta; rewrite make_timestamp_run; simpl; rewrite Hlook;
    by eexists.
Qed.

Lemma emit_fails_before_buffering_witness :
  write_to_file demo_self = true /\
  is_dir blocked_w (log_file_path demo_self) = true /\
  exists w',
    _echo demo_self "disk full" "ERROR" blocked_w = Raise IsADirectoryError w' /\
    w_heap w' = w_heap blocked_w /\ w_console w' = w_console blocked_w /\
    w_fs w' = w_fs blocked_w /\ w_reads w' = S (w_reads blocked_w).
Proof.
  split; [reflexivity|]. split; [reflexivity|].
  exact (emit_fails_before_buffering demo_self blocked_w "disk full" "ERROR"
           eq_refl eq_refl).
Defined.

(** X9.  A log file that has gone missing from its directory is made again
    by the next emit, which opens it in append mode: it then holds the
    emitted line only -- the header of construction is not written again
    -- while the buffers go on from what they held.  This is so whatever
    becomes of the line on the console afterwards. *)
Theorem emit_recreates_missing_file self w msg m_type :
  write_to_file self = true ->
  logger_inv self w ->
  w_fs w !! log_file_path self = None ->
  is_dir w (parent_dir (log_file_path self)) = true ->
  w_fs (world_after (_echo self msg m_type w)) !! log_file_path self
  = Some (File (line_at self (w_clock w) (w_reads w) m_type msg)) /\
  deref (world_after (_echo self msg m_type w)) (log_list self)
  = deref w (log_list self) ++ [line_at self (w_clock w) (w_reads w) m_type msg].
Proof.
  intros Hwtf Hinv Hnone _.
  destruct (echo_run self w msg m_type Hinv) as (w' & Hrun & _ & _ & Hrest).
  destruct (echo_step self w msg m_type Hinv)
    as (w2 & Hrun' & _ & _ & _ & _ & _ & Hall & _).
  rewrite Hrun in Hrun'. injection Hrun' as <-.
  unfold emitted in Hall. rewrite Hwtf in *.
  destruct Hrest as (_ & _ & Hfs & _).
  rewrite Hrun. simpl. split; [|done].
  rewrite Hfs, lookup_insert_eq. unfold file_content. by rewrite Hnone.
Qed.

Lemma emit_recreates_missing_file_witness :
  write_to_file demo_self = true /\
  logger_inv demo_self wiped_w /\
  w_fs wiped_w !! log_file_path demo_self = None /\
  is_dir wiped_w (parent_dir (log_file_path demo_self)) = true /\
  w_fs (world_after (_echo demo_self "disk full" "ERROR" wiped_w))
    !! log_file_path demo_self
  = Some (File (line_at demo_self (w_clock wiped_w) (w_reads wiped_w)
                  "ERROR" "disk full")) /\
  deref (world_after (_echo demo_self "disk full" "ERROR" wiped_w))
    (log_list demo_self)
  = deref wiped_w (log_list demo_self)
    ++ [line_at demo_self (w_clock wiped_w) (w_reads wiped_w) "ERROR" "disk full"].
Proof.
  assert (logger_inv demo_self wiped_w) as Hinv
    by (split; simpl; [lia | lia | lia | reflexivity]).
  split; [reflexivity|]. split; [exact Hinv|]. do 2 (split; [reflexivity|]).
  exact (emit_recreates_missing_file demo_self wiped_w "disk full" "ERROR"
           eq_refl Hinv eq_refl eq_refl).
Defined.


